(** * MNIST feed-forward classifier notebook: data pipeline, model and training script

    A shallow embedding of [src/neural-network-tensorflow.ipynb].  The
    notebook is a linear script; the embedding follows its cells in
    order:

    - the numeric types the script computes with ([uint8] pixels as [Z],
      [float32]/[float64] as IEEE 754 values of [SpecFloat], [int64]
      counts as [Z] with the wrap-around written out);
    - the [scale] function and the [tf.data] pipeline (map, shuffle,
      take, skip, batch);
    - the [Sequential] model and its forward pass over the reals;
    - [fit], [evaluate] and the final report, as a state monad that
      threads the model parameters and logs an event trace. *)

From Stdlib Require Import String.
From Stdlib Require Import ZArith List Lia Bool Arith.
From Stdlib Require Import Floats.SpecFloat.
From Stdlib Require Import Sorting.Permutation.
From Stdlib Require Import Reals Lra.
From Equations Require Import Equations.
Import ListNotations.

Set Implicit Arguments.

(* ===================================================================== *)
(** * Numeric types *)
(* ===================================================================== *)

(** ** IEEE 754 binary32 and binary64

    TensorFlow tensors of dtype [tf.float32] and Python floats
    (binary64).  Values are [spec_float]s; every operation rounds to
    nearest, ties to even, as [SpecFloat] specifies it. *)
Module F32.
Definition prec : Z := 24.
Definition emax : Z := 128.

Definition t := spec_float.

(** An integer converted to binary32 (exact below [2^24]). *)
Definition of_Z (n : Z) : t := binary_normalize prec emax n 0 false.

Definition div (x y : t) : t := SFdiv prec emax x y.
Definition leb (x y : t) : bool := SFleb x y.

Definition zero : t := of_Z 0.
Definition one : t := of_Z 1.

(** Rounds a binary64 value (or any finite [m * 2^e]) to binary32. *)
Definition round (x : spec_float) : t :=
  match x with
  | S754_finite s m e => binary_round prec emax s m e
  | _ => x
  end.
End F32.

Module F64.
Definition prec : Z := 53.
Definition emax : Z := 1024.

Definition t := spec_float.

Definition of_Z (n : Z) : t := binary_normalize prec emax n 0 false.
Definition mul (x y : t) : t := SFmul prec emax x y.

(** The Python literal [0.1]: the binary64 nearest to one tenth,
    [0x3FB999999999999A]. *)
Definition tenth : t := S754_finite false 7205759403792794 (-56).

(** The Python literal [100.]. *)
Definition hundred : t := of_Z 100.
End F64.

(** ** 64-bit signed integers ([tf.int64]) *)
Module Int64.
Definition modulus : Z := 2 ^ 64.
Definition half_modulus : Z := 2 ^ 63.

(** Two's complement wrap-around into [-2^63, 2^63). *)
Definition wrap (z : Z) : Z :=
  (z + half_modulus) mod modulus - half_modulus.

(** Truncation toward zero of a float, as the cast to an integer type
    does for values in range. *)
Definition trunc (x : spec_float) : Z :=
  match x with
  | S754_finite s m e =>
      cond_Zopp s
        (match e with
         | Zneg p => Z.quot (Zpos m) (2 ^ Zpos p)
         | _ => Zpos m * 2 ^ e
         end)
  | _ => 0
  end.

Definition min_value : Z := - half_modulus.

(** [tf.cast(x, tf.int64)] on a float tensor: the truncation when it is
    an [int64]; a NaN, an infinity or a value out of range gives the
    least [int64]. *)
Definition of_float (x : spec_float) : Z :=
  match x with
  | S754_zero _ => 0
  | S754_finite _ _ _ =>
      let z := trunc x in
      if ((min_value <=? z)%Z && (z <? half_modulus)%Z)%bool then z
      else min_value
  | _ => min_value
  end.

(** [tf.cast(n, tf.int64)] on an integer. *)
Definition of_int (n : Z) : Z := wrap n.
End Int64.

(* ===================================================================== *)
(** * Tensors and samples *)
(* ===================================================================== *)

(** A rank-3 tensor (height, width, channels), row-major. *)
Definition tensor3 (A : Type) : Type := list (list (list A)).

Definition tensor3_map {A B : Type} (f : A -> B) (t : tensor3 A) : tensor3 B :=
  map (map (map f)) t.

(** Every element of the tensor satisfies [P]. *)
Definition tensor3_Forall {A : Type} (P : A -> Prop) (t : tensor3 A) : Prop :=
  Forall (Forall (Forall P)) t.

(** The tensor has exactly the shape [(h, w, c)]. *)
Definition has_shape {A : Type} (shape : nat * nat * nat) (t : tensor3 A) : bool :=
  let '(h, w, c) := shape in
  (length t =? h)%nat
  && forallb (fun row => (length row =? w)%nat
                         && forallb (fun px => (length px =? c)%nat) row) t.

(** All elements in row-major order ([Flatten]). *)
Definition flatten {A : Type} (t : tensor3 A) : list A := concat (concat t).

(** A [uint8] image as the dataset provider yields it, and its label. *)
Definition RawImage : Type := tensor3 Z.
Definition Label : Type := Z.
Definition RawSample : Type := (RawImage * Label)%type.

(** The same after [scale]: a [float32] image. *)
Definition Image : Type := tensor3 F32.t.
Definition Sample : Type := (Image * Label)%type.

(** A [uint8] value. *)
Definition is_uint8 (p : Z) : Prop := (0 <= p <= 255)%Z.

(* ===================================================================== *)
(** * Loading and preprocessing *)
(* ===================================================================== *)

(** ** [scale]

    [image = tf.cast(image, tf.float32); image /= 255.; return image, label] *)

(** [tf.cast(., tf.float32)] on one pixel. *)
Definition cast_float32 (p : Z) : F32.t := F32.of_Z p.

(** The constant [255.] as a [float32] tensor element. *)
Definition f255 : F32.t := F32.of_Z 255.

(** What [scale] does to one pixel. *)
Definition scale_pixel (p : Z) : F32.t := F32.div (cast_float32 p) f255.

Definition scale (image : RawImage) (label : Label) : Image * Label :=
  let image := tensor3_map cast_float32 image in
  let image := tensor3_map (fun x => F32.div x f255) image in
  (image, label).

(** [0 <= x <= 1] as [float32] comparisons (false on NaN). *)
Definition in_unit_range (x : F32.t) : bool :=
  F32.leb F32.zero x && F32.leb x F32.one.

(** ** [tf.data] transformations

    A dataset is read by iterating it; one iteration yields a finite
    sequence of elements, a [list].  [map], [take], [skip] and [batch]
    are functions of that sequence; [shuffle] also consumes the random
    draws of the iteration. *)

(** The random draws of one iteration: the [i]-th draw is reduced
    modulo the number of buffered elements. *)
Definition Draws : Type := nat -> nat.

Section Dataset.
Context {A : Type}.

(** [ds.take(count)]: the first [count] elements; a negative count
    takes everything. *)
Definition take (count : Z) (ds : list A) : list A :=
  if (count <? 0)%Z then ds else firstn (Z.to_nat count) ds.

(** [ds.skip(count)]: everything after the first [count] elements; a
    negative count skips everything. *)
Definition skip (count : Z) (ds : list A) : list A :=
  if (count <? 0)%Z then [] else skipn (Z.to_nat count) ds.

(** Removes the element in slot [k] of the shuffle buffer. *)
Fixpoint extract (k : nat) (buf : list A) {struct buf} : option (A * list A) :=
  match buf with
  | [] => None
  | x :: buf' =>
      match k with
      | O => Some (x, buf')
      | S k' =>
          match extract k' buf' with
          | Some (y, rest) => Some (y, x :: rest)
          | None => None
          end
      end
  end.

(** The shuffle loop: a random element leaves the buffer and the next
    input element, when there is one, enters it.  [steps] counts the
    elements still to be produced. *)
Fixpoint shuffle_loop (draws : Draws) (steps i : nat) (buf rest : list A)
  : list A :=
  match steps with
  | O => []
  | S steps' =>
      match extract (draws i mod length buf) buf with
      | None => []
      | Some (x, buf') =>
          match rest with
          | [] => x :: shuffle_loop draws steps' (S i) buf' []
          | y :: rest' => x :: shuffle_loop draws steps' (S i) (buf' ++ [y]) rest'
          end
      end
  end.

(** [ds.shuffle(buffer_size)]: the buffer is filled with the first
    [buffer_size] elements, then the loop runs until input and buffer
    are empty.  tf.data rejects a buffer size below 1, hence
    [positive]. *)
Definition shuffle (buffer_size : positive) (draws : Draws) (ds : list A)
  : list A :=
  let n := Pos.to_nat buffer_size in
  shuffle_loop draws (length ds) 0 (firstn n ds) (skipn n ds).

(** Consecutive groups of [n] elements; the last group holds what is
    left ([drop_remainder] is not set). *)
Equations? chunks (n : nat) (ds : list A) : list (list A)
  by wf (length ds) lt :=
  chunks O _ := [];
  chunks (S m) [] := [];
  chunks (S m) (x :: ds) := (x :: firstn m ds) :: chunks (S m) (skipn m ds).
Proof. rewrite length_skipn. simpl. lia. Qed.

(** [ds.batch(batch_size)]: an error ([None]) unless the size is
    positive. *)
Definition batch (batch_size : Z) (ds : list A) : option (list (list A)) :=
  if (batch_size <=? 0)%Z then None
  else Some (chunks (Z.to_nat batch_size) ds).

(** [next(iter(ds))]: the first element, [None] for [StopIteration]. *)
Definition next_iter (ds : list A) : option A := hd_error ds.
End Dataset.

(** ** The loaded dataset

    [tfds.load(name='mnist', with_info=True, as_supervised=True)]: the
    two splits as sequences of (image, label) pairs, and the example
    counts of [mnist_info.splits]. *)
Record Mnist : Type := {
  mnist_train : list RawSample;
  mnist_test : list RawSample;
  train_num_examples : Z;
  test_num_examples : Z
}.

(** A batch: the samples grouped together; as tensors, the pair of the
    stacked images and the stacked labels. *)
Definition Batch : Type := list Sample.

Definition batch_tensors (b : Batch) : list Image * list Label := List.split b.

Definition BUFFER_SIZE : positive := 10000.
Definition BATCH_SIZE : Z := 100.

Section Pipeline.
Variable mnist : Mnist.

(** [num_validation_samples = 0.1 * mnist_info.splits['train'].num_examples]
    (a Python float), then [tf.cast(num_validation_samples, tf.int64)]:
    the float becomes a [float32] tensor and is truncated. *)
Definition num_validation_samples : Z :=
  Int64.of_float
    (F32.round (F64.mul F64.tenth (F64.of_Z (train_num_examples mnist)))).

(** [num_test_samples = tf.cast(mnist_info.splits['test'].num_examples, tf.int64)] *)
Definition num_test_samples : Z :=
  Int64.of_int (test_num_examples mnist).

Definition scaled_train_and_validation_data : list Sample :=
  map (fun s => scale (fst s) (snd s)) (mnist_train mnist).

Definition scaled_test_data : list Sample :=
  map (fun s => scale (fst s) (snd s)) (mnist_test mnist).

(** Each iteration of the shuffled dataset has its own draws. *)
Definition shuffled_train_and_validation_data (draws : Draws) : list Sample :=
  shuffle BUFFER_SIZE draws scaled_train_and_validation_data.

(** The two partitions before batching. *)
Definition validation_samples (draws : Draws) : list Sample :=
  take num_validation_samples (shuffled_train_and_validation_data draws).

Definition train_samples (draws : Draws) : list Sample :=
  skip num_validation_samples (shuffled_train_and_validation_data draws).

Definition train_data (draws : Draws) : option (list Batch) :=
  batch BATCH_SIZE (train_samples draws).

Definition validation_data (draws : Draws) : option (list Batch) :=
  batch num_validation_samples (validation_samples draws).

Definition test_data : option (list Batch) :=
  batch num_test_samples scaled_test_data.

(** [validation_inputs, validation_targets = next(iter(validation_data))] *)
Definition validation_inputs_targets (draws : Draws)
  : option (list Image * list Label) :=
  match validation_data draws with
  | Some batches => option_map batch_tensors (next_iter batches)
  | None => None
  end.
End Pipeline.

(** What the script relies on about the provider's MNIST: 60000 training
    and 10000 test examples, with [mnist_info] reporting those counts. *)
Definition mnist_counts (mnist : Mnist) : Prop :=
  Z.of_nat (length (mnist_train mnist)) = 60000%Z
  /\ Z.of_nat (length (mnist_test mnist)) = 10000%Z
  /\ train_num_examples mnist = 60000%Z
  /\ test_num_examples mnist = 10000%Z.

(* ===================================================================== *)
(** * The model *)
(* ===================================================================== *)

Inductive Activation : Type := relu | softmax.

Inductive Layer : Type :=
| Flatten (input_shape : nat * nat * nat)
| Dense (units : nat) (activation : Activation).

Definition input_size : nat := 784.
Definition output_size : nat := 10.
Definition hidden_layer_size : nat := 50.

(** [model = tf.keras.Sequential([...])] *)
Definition model : list Layer :=
  [ Flatten (28, 28, 1);
    Dense hidden_layer_size relu;
    Dense hidden_layer_size relu;
    Dense output_size softmax ].

(** The number of values a layer outputs for one observation. *)
Definition layer_output_size (l : Layer) : nat :=
  match l with
  | Flatten (h, w, c) => h * w * c
  | Dense units _ => units
  end.

(** ** Forward pass

    [Dense] implements [output = activation(dot(input, weight) + bias)].
    The arithmetic here is that of the real numbers, an idealisation:
    the library computes in [float32], with its own [exp] and order of
    summation, and its results are rounded. *)

Open Scope R_scope.

Definition Rsum (v : list R) : R := fold_right Rplus 0 v.

Definition vadd (u v : list R) : list R :=
  map (fun xy => fst xy + snd xy) (combine u v).

(** [dot(input, weight)]: the weight has one row per input, each with
    one entry per unit. *)
Definition dot (input : list R) (weight : list (list R)) (units : nat) : list R :=
  fold_right (fun xrow acc => vadd (map (Rmult (fst xrow)) (snd xrow)) acc)
             (repeat 0 units) (combine input weight).

Definition relu_fn (v : list R) : list R := map (Rmax 0) v.

Definition softmax_fn (v : list R) : list R :=
  let total := Rsum (map exp v) in
  map (fun x => exp x / total) v.

Definition activate (a : Activation) (v : list R) : list R :=
  match a with
  | relu => relu_fn v
  | softmax => softmax_fn v
  end.

Close Scope R_scope.

(** The trainable variables of one [Dense] layer. *)
Record DenseParams : Type := {
  kernel : list (list R);
  bias : list R
}.

(** The kernel has shape [(inputs, units)] and the bias [(units,)]. *)
Definition dense_shape_ok (inputs units : nat) (p : DenseParams) : bool :=
  (length (kernel p) =? inputs)
  && forallb (fun row => length row =? units) (kernel p)
  && (length (bias p) =? units).

(** What flows between layers: the input image, then vectors. *)
Inductive Value : Type :=
| Tensor3 (t : tensor3 R)
| Vector (v : list R).

Definition dense (units : nat) (a : Activation) (p : DenseParams) (input : list R)
  : option (list R) :=
  if dense_shape_ok (length input) units p
  then Some (activate a (vadd (dot input (kernel p) units) (bias p)))
  else None.

(** One layer applied to one observation; [None] is a shape error.  The
    weights of the [Dense] layers are consumed in order. *)
Definition apply_layer (l : Layer) (weights : list DenseParams) (x : Value)
  : option (Value * list DenseParams) :=
  match l, x with
  | Flatten shape, Tensor3 t =>
      if has_shape shape t then Some (Vector (flatten t), weights) else None
  | Dense units a, Vector v =>
      match weights with
      | p :: weights' =>
          match dense units a p v with
          | Some y => Some (Vector y, weights')
          | None => None
          end
      | [] => None
      end
  | _, _ => None
  end.

Fixpoint forward (layers : list Layer) (weights : list DenseParams) (x : Value)
  : option Value :=
  match layers with
  | [] => Some x
  | l :: layers' =>
      match apply_layer l weights x with
      | Some (y, weights') => forward layers' weights' y
      | None => None
      end
  end.

(** The model's output for one image. *)
Definition predict (weights : list DenseParams) (image : tensor3 R)
  : option (list R) :=
  match forward model weights (Tensor3 image) with
  | Some (Vector v) => Some v
  | _ => None
  end.

(** The weights as the model builds them: one kernel and bias per
    [Dense] layer, shaped by the size of the layer before. *)
Fixpoint weights_built (layers : list Layer) (inputs : nat)
    (weights : list DenseParams) : bool :=
  match layers with
  | [] => match weights with [] => true | _ => false end
  | Flatten shape :: layers' =>
      weights_built layers' (layer_output_size (Flatten shape)) weights
  | Dense units a :: layers' =>
      match weights with
      | p :: weights' =>
          dense_shape_ok inputs units p && weights_built layers' units weights'
      | [] => false
      end
  end.

(* ===================================================================== *)
(** * Training, evaluation and the report *)
(* ===================================================================== *)

(** The loss and the accuracy an evaluation returns (Python floats). *)
Definition Metrics : Type := (F64.t * F64.t)%type.

Definition NUM_EPOCHS : nat := 5.

(** The random choices of one run of the script: the draws of the
    iteration that reads the validation batch, and those of the
    iteration of each epoch. *)
Record Randomness : Type := {
  validation_draws : Draws;
  epoch_draws : nat -> Draws
}.

Section Training.

(** The compiled model with its weights and optimizer state, and the
    library routines the script calls on it: one optimizer step on a
    batch, the evaluation of input and target arrays, the evaluation of
    a batched dataset, and the [{:.2f}] formatting of a float. *)
Variable ModelState : Type.
Variable train_step : ModelState -> Batch -> ModelState.
Variable evaluate_arrays : ModelState -> list Image * list Label -> Metrics.
Variable evaluate_dataset : ModelState -> list Batch -> Metrics.
Variable format_2f : F64.t -> string.

(** What a run does, in order. *)
Inductive Event : Type :=
| Compiled (optimizer loss : string) (metrics : list string)
| EpochBegin (epoch epochs : nat)
| TrainStep (epoch : nat) (b : Batch)
| ValidationCheck (epoch : nat) (inputs_targets : list Image * list Label)
                  (result : Metrics)
| TestEvaluation (batches : list Batch) (result : Metrics)
| Printed (text : string).

Record Run : Type := {
  model_state : ModelState;
  events : list Event
}.

(** Computations that read and update the run and may raise an error. *)
Definition M (X : Type) : Type := Run -> option (X * Run).

Definition ret {X : Type} (x : X) : M X := fun r => Some (x, r).

Definition bind {X Y : Type} (m : M X) (f : X -> M Y) : M Y :=
  fun r => match m r with
           | Some (x, r') => f x r'
           | None => None
           end.

Notation "x <- m ;; k" := (bind m (fun x => k))
  (at level 61, m at next level, right associativity).
Notation "m ;; k" := (bind m (fun _ => k))
  (at level 61, right associativity).

Definition lift {X : Type} (o : option X) : M X :=
  fun r => match o with
           | Some x => Some (x, r)
           | None => None
           end.

Definition get_state : M ModelState := fun r => Some (model_state r, r).

Definition log (ev : Event) : M unit :=
  fun r => Some (tt, {| model_state := model_state r;
                        events := events r ++ [ev] |}).

Definition update (f : ModelState -> ModelState) : M unit :=
  fun r => Some (tt, {| model_state := f (model_state r);
                        events := events r |}).

Fixpoint for_each {X : Type} (xs : list X) (body : X -> M unit) : M unit :=
  match xs with
  | [] => ret tt
  | x :: xs' => body x ;; for_each xs' body
  end.

(** One optimizer step of epoch [epoch] on batch [b]. *)
Definition train_on_batch (epoch : nat) (b : Batch) : M unit :=
  update (fun st => train_step st b) ;; log (TrainStep epoch b).

(** An error unless [b] holds. *)
Definition require (b : bool) : M unit :=
  fun r => if b then Some (tt, r) else None.

Definition has_batches (batches : list Batch) : bool :=
  match batches with
  | [] => false
  | _ :: _ => true
  end.

(** One epoch of [fit]: the training dataset is iterated afresh and
    every batch takes one step; then the validation arrays are
    evaluated.  Training data without a batch is an error ("Expected
    input data to be non-empty"). *)
Definition fit_epoch (train : Draws -> option (list Batch)) (epochs : nat)
    (validation : list Image * list Label) (draws : nat -> Draws) (epoch : nat)
  : M unit :=
  log (EpochBegin epoch epochs) ;;
  batches <- lift (train (draws epoch)) ;;
  require (has_batches batches) ;;
  for_each batches (train_on_batch epoch) ;;
  st <- get_state ;;
  log (ValidationCheck epoch validation (evaluate_arrays st validation)).

(** [model.fit(train, epochs=epochs, validation_data=validation)] *)
Definition fit (train : Draws -> option (list Batch)) (epochs : nat)
    (validation : list Image * list Label) (draws : nat -> Draws) : M unit :=
  for_each (seq 1 epochs) (fit_epoch train epochs validation draws).

(** [model.evaluate(dataset)] *)
Definition evaluate (dataset : option (list Batch)) : M Metrics :=
  batches <- lift dataset ;;
  st <- get_state ;;
  let result := evaluate_dataset st batches in
  log (TestEvaluation batches result) ;;
  ret result.

(** The line the last cell prints. *)
Definition report (test_loss test_accuracy : F64.t) : string :=
  ("Perte lors du test : " ++ format_2f test_loss
   ++ ". Précision lors du test : "
   ++ format_2f (F64.mul test_accuracy F64.hundred) ++ "%")%string.

(** The cells of the notebook from the validation batch on. *)
Definition script (mnist : Mnist) (rnd : Randomness) : M unit :=
  validation <- lift (validation_inputs_targets mnist (validation_draws rnd)) ;;
  log (Compiled "adam" "sparse_categorical_crossentropy" ["accuracy"%string]) ;;
  fit (train_data mnist) NUM_EPOCHS validation (epoch_draws rnd) ;;
  result <- evaluate (test_data mnist) ;;
  log (Printed (report (fst result) (snd result))).

(** The model state once the first [k] epochs are done. *)
Fixpoint state_after_epochs (batches : nat -> list Batch) (st : ModelState)
    (k : nat) : ModelState :=
  match k with
  | O => st
  | S k' => fold_left train_step (batches k) (state_after_epochs batches st k')
  end.

(** The events of epoch [epoch], started in state [st]. *)
Definition epoch_events (epochs : nat) (validation : list Image * list Label)
    (batches : list Batch) (st : ModelState) (epoch : nat) : list Event :=
  EpochBegin epoch epochs
  :: map (TrainStep epoch) batches
  ++ [ValidationCheck epoch validation
        (evaluate_arrays (fold_left train_step batches st) validation)].

Definition is_test_evaluation (ev : Event) : bool :=
  match ev with
  | TestEvaluation _ _ => true
  | _ => false
  end.

Definition is_validation_check (ev : Event) : bool :=
  match ev with
  | ValidationCheck _ _ _ => true
  | _ => false
  end.

Definition is_epoch_begin (ev : Event) : bool :=
  match ev with
  | EpochBegin _ _ => true
  | _ => false
  end.

End Training.

(* ===================================================================== *)
(** * Auxiliary definitions *)
(* ===================================================================== *)

(** What the spec words as "the integer truncation of 0.1 times the
    count": the exact tenth, truncated toward zero. *)
Definition truncated_tenth (count : Z) : Z := Z.quot count 10.

(** The count [cast(0.1 * n)] as the script computes it from a train
    count [n]. *)
Definition validation_count (n : Z) : Z :=
  num_validation_samples
    {| mnist_train := []; mnist_test := [];
       train_num_examples := n; test_num_examples := 0 |}.

(** The provider's images are [uint8] tensors. *)
Definition uint8_images (samples : list RawSample) : Prop :=
  Forall (fun s => tensor3_Forall is_uint8 (fst s)) samples.

(** The intensity a scaled pixel came from: the scaled value times 255,
    rounded to the nearest integer. *)
Definition recover_pixel (x : F32.t) : Z :=
  Int64.trunc
    (SFadd F32.prec F32.emax
       (SFmul F32.prec F32.emax x f255)
       (F32.div F32.one (F32.of_Z 2))).

(** The batches one iteration of [train_data] yields. *)
Definition train_batches (mnist : Mnist) (d : Draws) : list Batch :=
  chunks (Z.to_nat BATCH_SIZE) (train_samples mnist d).

(** The [len] integers from [start] on. *)
Fixpoint zrange (start : Z) (len : nat) : list Z :=
  match len with
  | O => []
  | S len' => start :: zrange (start + 1) len'
  end.

(** Draws that name the same slot every time. *)
Definition always (k : nat) : Draws := fun _ => k.

(** The event is an optimizer step. *)
Definition is_train_step (ev : Event) : bool :=
  match ev with
  | TrainStep _ _ => true
  | _ => false
  end.

(** The number of trainable values in the weights. *)
Definition dense_param_count (p : DenseParams) : nat :=
  list_sum (map (@length R) (kernel p)) + length (bias p).

Definition param_count (weights : list DenseParams) : nat :=
  list_sum (map dense_param_count weights).

(** Every element of a scaled image compares within 0 and 1. *)
Definition normalized (image : Image) : Prop :=
  tensor3_Forall (fun x => in_unit_range x = true) image.

(** ** Concrete inputs *)

(** A 2x2x1 image holding the extreme and two middle intensities. *)
Definition sample_image : RawImage := [[[0]; [51]]; [[128]; [255]]]%Z.

(** A one-pixel image. *)
Definition tiny_image (p : Z) : RawImage := [[[p]]].

(** A provider result with ten one-pixel training samples, told apart by
    their labels, and two test samples. *)
Definition tiny_mnist : Mnist := {|
  mnist_train := map (fun l => (tiny_image (25 * l), l)) [0; 1; 2; 3; 4; 5; 6; 7; 8; 9]%Z;
  mnist_test := [(tiny_image 255, 3%Z); (tiny_image 17, 8%Z)];
  train_num_examples := 10;
  test_num_examples := 2
|}.

(** A provider result with nine training samples only. *)
Definition short_mnist : Mnist := {|
  mnist_train := firstn 9 (mnist_train tiny_mnist);
  mnist_test := mnist_test tiny_mnist;
  train_num_examples := 9;
  test_num_examples := 2
|}.

(** A blank 28x28x1 image. *)
Definition blank_image : RawImage := repeat (repeat [0%Z] 28) 28.

(** A provider result with the MNIST counts: 60000 and 10000 blank
    images, labelled 0 in the train split and 1 in the test split. *)
Definition blank_mnist : Mnist := {|
  mnist_train := repeat (blank_image, 0%Z) (Z.to_nat 60000);
  mnist_test := repeat (blank_image, 1%Z) (Z.to_nat 10000);
  train_num_examples := 60000;
  test_num_examples := 10000
|}.

(** A blank image over the reals, and weights that are all zero. *)
Definition zero_image : tensor3 R := repeat (repeat [0%R] 28) 28.

Definition zero_dense (inputs units : nat) : DenseParams := {|
  kernel := repeat (repeat 0%R units) inputs;
  bias := repeat 0%R units
|}.

Definition zero_weights : list DenseParams :=
  [zero_dense 784 50; zero_dense 50 50; zero_dense 50 10].

(** Stand-ins for the library routines: the model state counts the steps
    taken, evaluations return fixed values. *)
Definition counting_step (st : nat) (b : Batch) : nat := S st.

Definition fixed_metrics : Metrics := (F64.of_Z 0, F64.of_Z 1).

Definition fixed_format (x : F64.t) : string := "0.00"%string.

Definition fixed_randomness : Randomness := {|
  validation_draws := fun i => i;
  epoch_draws := fun e i => e + i
|}.

(* ===================================================================== *)
(** * Properties *)
(* ===================================================================== *)

(** The literal [0.1] is the binary64 quotient of 1 by 10. *)
Example tenth_is_one_tenth :
  F64.tenth = SFdiv F64.prec F64.emax (F64.of_Z 1) (F64.of_Z 10).
Proof. reflexivity. Qed.

(** [0.1 * 60000] rounds to exactly 6000 in binary64. *)
Example tenth_of_60000 :
  F64.mul F64.tenth (F64.of_Z 60000) = F64.of_Z 6000.
Proof. reflexivity. Qed.

Example trunc_examples :
  Int64.of_float (F32.div (F32.of_Z 7) (F32.of_Z 2)) = 3%Z
  /\ Int64.of_float (SFopp (F32.div (F32.of_Z 7) (F32.of_Z 2))) = (-3)%Z
  /\ Int64.of_int 10000 = 10000%Z.
Proof. repeat split. Qed.

Example scale_pixel_0 : scale_pixel 0 = S754_zero false.
Proof. reflexivity. Qed.

Example scale_pixel_255 : scale_pixel 255 = F32.one.
Proof. reflexivity. Qed.

Example scale_pixel_51 : scale_pixel 51 = S754_finite false 13421773 (-26).
Proof. reflexivity. Qed.

Example take_3 : take 2 [1; 2; 3; 4; 5]%Z = [1; 2]%Z.
Proof. reflexivity. Qed.

Example skip_3 : skip 2 [1; 2; 3; 4; 5]%Z = [3; 4; 5]%Z.
Proof. reflexivity. Qed.

Example batch_5_2 : batch 2 [1; 2; 3; 4; 5]%Z = Some [[1; 2]; [3; 4]; [5]]%Z.
Proof. reflexivity. Qed.

Example batch_0 : batch 0 [1; 2; 3]%Z = None.
Proof. reflexivity. Qed.

Example shuffle_buffer_2 :
  shuffle 2 (fun i => i) [10; 20; 30; 40; 50]%Z = [10; 30; 20; 50; 40]%Z.
Proof. reflexivity. Qed.

(* --------------------------------------------------------------------- *)
(** ** [scale] *)
(* --------------------------------------------------------------------- *)

(** The 256 values a [uint8] pixel can take. *)
Lemma uint8_enumerated (p : Z) :
  is_uint8 p -> In p (map Z.of_nat (seq 0 256)).
Proof.
  intros [Hlo Hhi].
  rewrite <- (Z2Nat.id p) by exact Hlo.
  apply in_map, in_seq. lia.
Qed.

(** Checked on each of the 256 pixel values: the scaled pixel compares
    within [0, 1]. *)
Lemma scale_pixel_all_in_unit_range :
  forallb (fun p => in_unit_range (scale_pixel p)) (map Z.of_nat (seq 0 256)) = true.
Proof. vm_compute. reflexivity. Qed.

Lemma scale_pixel_in_unit_range (p : Z) :
  is_uint8 p -> in_unit_range (scale_pixel p) = true.
Proof.
  intros Hp.
  pose proof scale_pixel_all_in_unit_range as Hall.
  rewrite forallb_forall in Hall.
  apply Hall, uint8_enumerated, Hp.
Qed.

Lemma tensor3_map_map {A B C : Type} (f : A -> B) (g : B -> C) (t : tensor3 A) :
  tensor3_map g (tensor3_map f t) = tensor3_map (fun x => g (f x)) t.
Proof.
  unfold tensor3_map.
  rewrite map_map. apply map_ext. intros row.
  rewrite map_map. apply map_ext. intros px.
  apply map_map.
Qed.

Lemma tensor3_Forall_map {A B : Type} (f : A -> B) (P : A -> Prop) (Q : B -> Prop)
    (t : tensor3 A) :
  (forall x, P x -> Q (f x)) ->
  tensor3_Forall P t -> tensor3_Forall Q (tensor3_map f t).
Proof.
  intros HPQ. unfold tensor3_Forall, tensor3_map.
  intros Ht. apply Forall_map. revert Ht. apply Forall_impl. intros row Hrow.
  apply Forall_map. revert Hrow. apply Forall_impl. intros px Hpx.
  apply Forall_map. revert Hpx. apply Forall_impl. exact HPQ.
Qed.

(** [scale] is the pixel-wise map of [scale_pixel]. *)
Lemma scale_pixelwise (image : RawImage) (label : Label) :
  scale image label = (tensor3_map scale_pixel image, label).
Proof.
  unfold scale. rewrite tensor3_map_map. reflexivity.
Qed.

(** The bound does not hinge on the division being carried out as such:
    it also holds for the product with the [float32] reciprocal of 255,
    which a runtime may compute in its place. *)
Lemma scale_pixel_by_reciprocal_in_unit_range :
  forallb (fun p => in_unit_range
                      (SFmul F32.prec F32.emax (cast_float32 p)
                             (F32.div F32.one f255)))
          (map Z.of_nat (seq 0 256)) = true.
Proof. vm_compute. reflexivity. Qed.

(** C1. On an image whose pixels are all in 0..255, [scale] returns the
    image whose every element is the pixel cast to [float32] and divided
    by 255, and every element of the returned image lies between 0 and
    1 (as [float32] comparisons, so none is NaN either). *)
Theorem scale_normalizes (image : RawImage) (label : Label) :
  tensor3_Forall is_uint8 image ->
  fst (scale image label)
    = tensor3_map (fun p => F32.div (cast_float32 p) (F32.of_Z 255)) image
  /\ tensor3_Forall (fun x => F32.leb F32.zero x = true /\ F32.leb x F32.one = true)
       (fst (scale image label)).
Proof.
  intros Himg. rewrite scale_pixelwise. simpl fst. split.
  - reflexivity.
  - revert Himg. apply tensor3_Forall_map. intros p Hp.
    apply andb_true_iff. apply (scale_pixel_in_unit_range Hp).
Qed.

Lemma scale_normalizes_witness :
  tensor3_Forall is_uint8 sample_image
  /\ tensor3_Forall (fun x => F32.leb F32.zero x = true /\ F32.leb x F32.one = true)
       (fst (scale sample_image 7%Z)).
Proof.
  assert (H : tensor3_Forall is_uint8 sample_image).
  { unfold tensor3_Forall, sample_image, is_uint8.
    repeat (constructor; try lia). }
  split; [exact H | exact (proj2 (scale_normalizes 7%Z H))].
Defined.

(** C9. [scale] changes the image only: the second component of the
    returned pair is the label it was given, so a dataset mapped with
    [scale] carries the labels it had, in the same order. *)
Theorem scale_keeps_label (image : RawImage) (label : Label) :
  snd (scale image label) = label
  /\ forall samples : list RawSample,
       map snd (map (fun s => scale (fst s) (snd s)) samples) = map snd samples.
Proof.
  split.
  - reflexivity.
  - intros samples. rewrite map_map. apply map_ext.
    intros [i l]. reflexivity.
Qed.

(* --------------------------------------------------------------------- *)
(** ** [tf.data] transformations *)
(* --------------------------------------------------------------------- *)

Section DatasetFacts.
Context {A : Type}.
Implicit Types (ds buf rest : list A) (draws : Draws).

Lemma take_skip_app (count : Z) ds : take count ds ++ skip count ds = ds.
Proof.
  unfold take, skip. destruct (count <? 0)%Z.
  - apply app_nil_r.
  - apply firstn_skipn.
Qed.

Lemma take_length (count : Z) ds :
  (0 <= count)%Z ->
  length (take count ds) = Nat.min (Z.to_nat count) (length ds).
Proof.
  intros Hc. unfold take.
  destruct (Z.ltb_spec count 0); [lia | apply length_firstn].
Qed.

Lemma skip_length (count : Z) ds :
  (0 <= count)%Z ->
  length (skip count ds) = length ds - Z.to_nat count.
Proof.
  intros Hc. unfold skip.
  destruct (Z.ltb_spec count 0); [lia | apply length_skipn].
Qed.

(** An element of a duplicate-free sequence is not on both sides of a
    cut. *)
Lemma NoDup_app_disjoint (l1 l2 : list A) (x : A) :
  NoDup (l1 ++ l2) -> In x l1 -> ~ In x l2.
Proof.
  induction l1 as [|a l1 IH]; simpl; intros Hnd Hin1 Hin2.
  - exact Hin1.
  - inversion Hnd as [|? ? Hnotin Hnd']; subst.
    destruct Hin1 as [-> | Hin1].
    + apply Hnotin, in_or_app. right. exact Hin2.
    + exact (IH Hnd' Hin1 Hin2).
Qed.

Lemma extract_Some (k : nat) buf :
  k < length buf -> exists x buf', extract k buf = Some (x, buf').
Proof.
  revert k. induction buf as [|a buf IH]; simpl; intros k Hk; [lia|].
  destruct k as [|k]; simpl; [eauto|].
  assert (Hk' : k < length buf) by (simpl in Hk; lia).
  destruct (IH k Hk') as (x & buf' & ->). eauto.
Qed.

Lemma extract_Permutation (k : nat) buf (x : A) buf' :
  extract k buf = Some (x, buf') -> Permutation buf (x :: buf').
Proof.
  revert k x buf'. induction buf as [|a buf IH]; intros k x buf' H.
  - discriminate.
  - destruct k as [|k]; simpl in H.
    + injection H as <- <-. reflexivity.
    + destruct (extract k buf) as [[y rest']|] eqn:E; [|discriminate].
      injection H as <- <-.
      rewrite (IH _ _ _ E). apply perm_swap.
Qed.

(** The loop outputs what is in the buffer and in the rest of the
    input, each element once. *)
Lemma shuffle_loop_Permutation draws (steps : nat) :
  forall (i : nat) buf rest,
    steps = length buf + length rest ->
    (buf = [] -> rest = []) ->
    Permutation (shuffle_loop draws steps i buf rest) (buf ++ rest).
Proof.
  induction steps as [|steps IH]; intros i buf rest Hsteps Hbuf.
  - destruct buf; [|simpl in Hsteps; lia].
    rewrite (Hbuf eq_refl). reflexivity.
  - assert (Hne : length buf <> 0).
    { intros H0. apply length_zero_iff_nil in H0. subst buf.
      rewrite (Hbuf eq_refl) in Hsteps. simpl in Hsteps. lia. }
    simpl.
    destruct (@extract_Some (draws i mod length buf) buf) as (x & buf' & E).
    { apply Nat.mod_upper_bound. exact Hne. }
    rewrite E. pose proof (extract_Permutation _ _ E) as HP.
    pose proof (Permutation_length HP) as HL. simpl in HL.
    destruct rest as [|y rest].
    + rewrite app_nil_r, HP. apply perm_skip.
      rewrite <- (app_nil_r buf') at 2.
      apply IH; [simpl in *; lia | reflexivity].
    + rewrite HP. simpl. apply perm_skip.
      rewrite (IH (S i) (buf' ++ [y]) rest).
      * rewrite <- app_assoc. reflexivity.
      * rewrite length_app. simpl in *. lia.
      * intros Hnil. apply app_eq_nil in Hnil. destruct Hnil; discriminate.
Qed.

(** Whatever the draws, shuffling rearranges: nothing is lost, added or
    repeated. *)
Lemma shuffle_Permutation (buffer_size : positive) draws ds :
  Permutation (shuffle buffer_size draws ds) ds.
Proof.
  unfold shuffle.
  rewrite shuffle_loop_Permutation.
  - rewrite firstn_skipn. reflexivity.
  - rewrite <- length_app, firstn_skipn. reflexivity.
  - intros Hnil. destruct ds as [|a ds]; [apply skipn_nil|].
    destruct (Pos.to_nat buffer_size) eqn:E; [lia | discriminate].
Qed.

Lemma shuffle_length (buffer_size : positive) draws ds :
  length (shuffle buffer_size draws ds) = length ds.
Proof. apply Permutation_length, shuffle_Permutation. Qed.
End DatasetFacts.

Section ChunkFacts.
Context {A : Type}.
Implicit Types (ds : list A).

(** Batching keeps the elements and their order. *)
Lemma chunks_concat (n : nat) ds : 0 < n -> concat (chunks n ds) = ds.
Proof.
  funelim (chunks n ds); intros Hn; simp chunks.
  - lia.
  - reflexivity.
  - simpl. rewrite H by lia. f_equal. apply firstn_skipn.
Qed.

(** No batch is empty and none exceeds the batch size. *)
Lemma chunks_bounded (n : nat) ds :
  Forall (fun b => 1 <= length b <= n) (chunks n ds).
Proof.
  funelim (chunks n ds); simp chunks; constructor.
  - simpl. rewrite length_firstn. lia.
  - exact H.
Qed.

(** When the batch size divides the number of elements, every batch is
    full. *)
Lemma chunks_exact (m k : nat) :
  forall ds, length ds = k * S m ->
    length (chunks (S m) ds) = k
    /\ Forall (fun b => length b = S m) (chunks (S m) ds).
Proof.
  induction k as [|k IH]; intros ds Hlen.
  - apply length_zero_iff_nil in Hlen. subst ds. simp chunks.
    split; [reflexivity | constructor].
  - destruct ds as [|x ds]; [discriminate|].
    simpl in Hlen. simp chunks.
    destruct (IH (skipn m ds)) as [IHlen IHall].
    { rewrite length_skipn. lia. }
    split.
    + simpl. rewrite IHlen. reflexivity.
    + constructor; [|exact IHall].
      simpl. rewrite length_firstn. lia.
Qed.

Lemma batch_positive (batch_size : Z) ds :
  (0 < batch_size)%Z ->
  batch batch_size ds = Some (chunks (Z.to_nat batch_size) ds).
Proof.
  intros Hpos. unfold batch.
  destruct (Z.leb_spec batch_size 0); [lia | reflexivity].
Qed.

(** A batch size at least the number of elements gives one batch. *)
Lemma chunks_single (n : nat) ds :
  ds <> [] -> length ds <= n -> chunks n ds = [ds].
Proof.
  intros Hne Hlen. destruct ds as [|x ds]; [congruence|].
  destruct n as [|m]; [simpl in Hlen; lia|].
  simpl in Hlen. simp chunks.
  rewrite firstn_all2, skipn_all2 by lia.
  simp chunks. reflexivity.
Qed.
End ChunkFacts.

(* --------------------------------------------------------------------- *)
(** ** The partitions of the script *)
(* --------------------------------------------------------------------- *)

Lemma shuffled_Permutation (mnist : Mnist) (draws : Draws) :
  Permutation (shuffled_train_and_validation_data mnist draws)
              (scaled_train_and_validation_data mnist).
Proof. apply shuffle_Permutation. Qed.

Lemma shuffled_length (mnist : Mnist) (draws : Draws) :
  length (shuffled_train_and_validation_data mnist draws)
  = length (mnist_train mnist).
Proof.
  rewrite (Permutation_length (shuffled_Permutation mnist draws)).
  apply length_map.
Qed.

(** Within one iteration of the shuffled training data, the validation
    partition (the first [num_validation_samples] elements) followed by
    the training partition (what is left after skipping as many) is the
    whole shuffled sequence, in order; the validation partition holds
    the positions below its length and the training partition the
    positions from there on, so no position is in both; and when the
    samples are pairwise distinct, no sample is in both. *)
Theorem validation_train_partition (mnist : Mnist) (draws : Draws) :
  let whole := shuffled_train_and_validation_data mnist draws in
  let validation := validation_samples mnist draws in
  let train := train_samples mnist draws in
  validation ++ train = whole
  /\ (forall i, i < length validation -> nth_error validation i = nth_error whole i)
  /\ (forall j, nth_error train j = nth_error whole (length validation + j))
  /\ (NoDup whole -> forall s, In s validation -> ~ In s train).
Proof.
  intros whole validation train.
  assert (Happ : validation ++ train = whole) by apply take_skip_app.
  repeat split.
  - exact Happ.
  - intros i Hi. rewrite <- Happ. symmetry. apply nth_error_app1. exact Hi.
  - intros j. rewrite <- Happ, nth_error_app2 by lia.
    f_equal. lia.
  - intros Hnd s. rewrite <- Happ in Hnd. apply NoDup_app_disjoint. exact Hnd.
Qed.

Example tiny_num_validation_samples : num_validation_samples tiny_mnist = 1%Z.
Proof. reflexivity. Qed.

Lemma tiny_scaled_NoDup : NoDup (scaled_train_and_validation_data tiny_mnist).
Proof.
  vm_compute.
  repeat (constructor; [simpl; intuition discriminate|]).
  constructor.
Qed.

Lemma validation_train_partition_witness :
  NoDup (shuffled_train_and_validation_data tiny_mnist (fun i => 3 * i))
  /\ forall s,
       In s (validation_samples tiny_mnist (fun i => 3 * i)) ->
       ~ In s (train_samples tiny_mnist (fun i => 3 * i)).
Proof.
  assert (H : NoDup (shuffled_train_and_validation_data tiny_mnist (fun i => 3 * i))).
  { apply (Permutation_NoDup (Permutation_sym (shuffled_Permutation _ _))).
    exact tiny_scaled_NoDup. }
  split; [exact H|].
  exact (proj2 (proj2 (proj2 (validation_train_partition tiny_mnist (fun i => 3 * i)))) H).
Defined.

(** The counts the script computes for MNIST. *)
Lemma mnist_num_validation_samples (mnist : Mnist) :
  mnist_counts mnist -> num_validation_samples mnist = 6000%Z.
Proof.
  intros (_ & _ & Htrain & _). unfold num_validation_samples.
  rewrite Htrain. vm_compute. reflexivity.
Qed.

Lemma mnist_num_test_samples (mnist : Mnist) :
  mnist_counts mnist -> num_test_samples mnist = 10000%Z.
Proof.
  intros (_ & _ & _ & Htest). unfold num_test_samples.
  rewrite Htest. vm_compute. reflexivity.
Qed.

Lemma mnist_validation_length (mnist : Mnist) (draws : Draws) :
  mnist_counts mnist ->
  Z.of_nat (length (validation_samples mnist draws)) = 6000%Z.
Proof.
  intros Hm. unfold validation_samples.
  rewrite (mnist_num_validation_samples Hm), take_length by lia.
  rewrite shuffled_length. destruct Hm as (Htrain & _). lia.
Qed.

Lemma mnist_train_length (mnist : Mnist) (draws : Draws) :
  mnist_counts mnist ->
  Z.of_nat (length (train_samples mnist draws)) = 54000%Z.
Proof.
  intros Hm. unfold train_samples.
  rewrite (mnist_num_validation_samples Hm), skip_length by lia.
  rewrite shuffled_length. destruct Hm as (Htrain & _). lia.
Qed.

Lemma mnist_train_batches (mnist : Mnist) (draws : Draws) :
  mnist_counts mnist ->
  exists batches,
    train_data mnist draws = Some batches
    /\ concat batches = train_samples mnist draws
    /\ length batches = 540
    /\ Forall (fun b => Z.of_nat (length b) = BATCH_SIZE) batches.
Proof.
  intros Hm. pose proof (mnist_train_length draws Hm) as Hlen.
  unfold train_data, BATCH_SIZE. rewrite batch_positive by lia.
  eexists. split; [reflexivity|].
  change (Z.to_nat 100) with (S 99).
  destruct (@chunks_exact _ 99 540 (train_samples mnist draws)) as [Hn Hall].
  { lia. }
  repeat split.
  - apply chunks_concat. lia.
  - exact Hn.
  - revert Hall. apply Forall_impl. intros b Hb. rewrite Hb. reflexivity.
Qed.

Lemma mnist_validation_batches (mnist : Mnist) (draws : Draws) :
  mnist_counts mnist ->
  validation_data mnist draws = Some [validation_samples mnist draws].
Proof.
  intros Hm. pose proof (mnist_validation_length draws Hm) as Hlen.
  unfold validation_data.
  rewrite (mnist_num_validation_samples Hm), batch_positive by lia.
  f_equal. apply chunks_single.
  - intros Hnil. rewrite Hnil in Hlen. discriminate.
  - lia.
Qed.

Lemma mnist_test_length (mnist : Mnist) :
  mnist_counts mnist -> Z.of_nat (length (scaled_test_data mnist)) = 10000%Z.
Proof.
  intros (_ & Htest & _). unfold scaled_test_data.
  rewrite length_map. exact Htest.
Qed.

Lemma mnist_test_batches (mnist : Mnist) :
  mnist_counts mnist -> test_data mnist = Some [scaled_test_data mnist].
Proof.
  intros Hm. pose proof (mnist_test_length Hm) as Hlen.
  unfold test_data.
  rewrite (mnist_num_test_samples Hm), batch_positive by lia.
  f_equal. apply chunks_single.
  - intros Hnil. rewrite Hnil in Hlen. discriminate.
  - lia.
Qed.

(** C3. On MNIST every partition handed to training and evaluation is
    grouped into batches of one size: the training partition into
    batches of exactly [BATCH_SIZE] = 100 samples, the validation
    partition into one batch of [num_validation_samples] samples and the
    test partition into one batch of [num_test_samples] samples; the
    batches hold the partition's samples in order. *)
Theorem partitions_batched (mnist : Mnist) (draws : Draws) :
  mnist_counts mnist ->
  BATCH_SIZE = 100%Z
  /\ (exists batches,
        train_data mnist draws = Some batches
        /\ concat batches = train_samples mnist draws
        /\ Forall (fun b => Z.of_nat (length b) = BATCH_SIZE) batches)
  /\ (exists batches,
        validation_data mnist draws = Some batches
        /\ concat batches = validation_samples mnist draws
        /\ Forall (fun b => Z.of_nat (length b) = num_validation_samples mnist) batches)
  /\ (exists batches,
        test_data mnist = Some batches
        /\ concat batches = scaled_test_data mnist
        /\ Forall (fun b => Z.of_nat (length b) = num_test_samples mnist) batches).
Proof.
  intros Hm. split; [reflexivity|]. split; [|split].
  - destruct (mnist_train_batches draws Hm) as (batches & Hb & Hcat & _ & Hall).
    exists batches. auto.
  - exists [validation_samples mnist draws]. repeat split.
    + apply mnist_validation_batches, Hm.
    + simpl. apply app_nil_r.
    + constructor; [|constructor].
      rewrite (mnist_num_validation_samples Hm).
      apply mnist_validation_length, Hm.
  - exists [scaled_test_data mnist]. repeat split.
    + apply mnist_test_batches, Hm.
    + simpl. apply app_nil_r.
    + constructor; [|constructor].
      rewrite (mnist_num_test_samples Hm).
      apply mnist_test_length, Hm.
Qed.

Lemma blank_mnist_counts : mnist_counts blank_mnist.
Proof.
  unfold mnist_counts, blank_mnist.
  cbn [mnist_train mnist_test train_num_examples test_num_examples].
  rewrite !repeat_length, !Z2Nat.id by lia.
  repeat split.
Qed.

Lemma partitions_batched_witness :
  mnist_counts blank_mnist
  /\ exists batches,
       train_data blank_mnist (fun i => i) = Some batches
       /\ concat batches = train_samples blank_mnist (fun i => i)
       /\ Forall (fun b => Z.of_nat (length b) = BATCH_SIZE) batches.
Proof.
  split; [exact blank_mnist_counts|].
  exact (proj1 (proj2 (partitions_batched (fun i => i) blank_mnist_counts))).
Defined.

(** C10. On MNIST the number of validation samples is the truncated
    tenth of the training count, 6000 of 60000; the 54000 samples left
    for training make exactly 540 batches, each of exactly 100 samples,
    so the last batch is full as well. *)
Theorem validation_count_and_train_batches (mnist : Mnist) (draws : Draws) :
  mnist_counts mnist ->
  num_validation_samples mnist = truncated_tenth (train_num_examples mnist)
  /\ num_validation_samples mnist = 6000%Z
  /\ Z.of_nat (length (train_samples mnist draws)) = 54000%Z
  /\ exists batches,
       train_data mnist draws = Some batches
       /\ length batches = 540
       /\ Forall (fun b => length b = 100) batches.
Proof.
  intros Hm. pose proof (mnist_num_validation_samples Hm) as Hnv.
  repeat split.
  - rewrite Hnv. destruct Hm as (_ & _ & -> & _). reflexivity.
  - exact Hnv.
  - apply mnist_train_length, Hm.
  - destruct (mnist_train_batches draws Hm) as (batches & Hb & _ & Hn & Hall).
    exists batches. repeat split; [exact Hb | exact Hn |].
    revert Hall. apply Forall_impl. unfold BATCH_SIZE. intros b Hb100. lia.
Qed.

Lemma validation_count_and_train_batches_witness :
  mnist_counts blank_mnist
  /\ num_validation_samples blank_mnist = 6000%Z
  /\ exists batches,
       train_data blank_mnist (fun i => 7 * i) = Some batches
       /\ length batches = 540
       /\ Forall (fun b => length b = 100) batches.
Proof.
  split; [exact blank_mnist_counts|].
  pose proof (validation_count_and_train_batches (fun i => 7 * i) blank_mnist_counts)
    as (_ & Hnv & _ & Hb).
  exact (conj Hnv Hb).
Defined.

(* --------------------------------------------------------------------- *)
(** ** The model *)
(* --------------------------------------------------------------------- *)

(** C4. The classifier is exactly the four-layer sequence flatten,
    dense, dense, dense with softmax: a [Flatten] layer with input shape
    (28, 28, 1), two hidden [Dense] layers of 50 units with relu, and a
    last [Dense] layer of 10 units with softmax; the layers output 784
    (the script's [input_size]), 50, 50 and 10 values. *)
Theorem model_layer_sequence :
  model = [ Flatten (28, 28, 1); Dense 50 relu; Dense 50 relu; Dense 10 softmax ]
  /\ length model = 4
  /\ map layer_output_size model
     = [input_size; hidden_layer_size; hidden_layer_size; output_size]
  /\ map layer_output_size model = [784; 50; 50; 10]
  /\ nth_error model 3 = Some (Dense output_size softmax).
Proof. repeat split. Qed.

Section ForwardFacts.
Open Scope R_scope.

Lemma Rsum_map_div (f : R -> R) (total : R) (v : list R) :
  Rsum (map (fun x => f x / total) v) = Rsum (map f v) / total.
Proof.
  induction v as [|x v IH]; simpl.
  - unfold Rdiv. symmetry. apply Rmult_0_l.
  - rewrite IH. unfold Rdiv. symmetry. apply Rmult_plus_distr_r.
Qed.

Lemma Rsum_exp_pos (v : list R) : v <> [] -> 0 < Rsum (map exp v).
Proof.
  induction v as [|x v IH]; intros Hne; [congruence|].
  simpl. destruct v as [|y v].
  - simpl. rewrite Rplus_0_r. apply exp_pos.
  - apply Rplus_lt_0_compat; [apply exp_pos | apply IH; discriminate].
Qed.

(** Softmax of a non-empty vector is a probability distribution. *)
Lemma softmax_distribution (v : list R) :
  v <> [] ->
  length (softmax_fn v) = length v
  /\ Forall (fun p => 0 < p) (softmax_fn v)
  /\ Rsum (softmax_fn v) = 1.
Proof.
  intros Hne. pose proof (Rsum_exp_pos Hne) as Hpos.
  unfold softmax_fn. repeat split.
  - apply length_map.
  - apply Forall_map, Forall_forall. intros x _.
    apply Rdiv_lt_0_compat; [apply exp_pos | exact Hpos].
  - rewrite Rsum_map_div. apply Rdiv_diag. lra.
Qed.

Lemma vadd_length (u v : list R) :
  length (vadd u v) = Nat.min (length u) (length v).
Proof. unfold vadd. rewrite length_map. apply length_combine. Qed.

Lemma activate_length (a : Activation) (v : list R) :
  length (activate a v) = length v.
Proof. destruct a; apply length_map. Qed.

Lemma dot_length (units : nat) (weight : list (list R)) :
  forallb (fun row => (length row =? units)%nat) weight = true ->
  forall input, length (dot input weight units) = units.
Proof.
  unfold dot. induction weight as [|row weight IH]; intros Hrows input.
  - rewrite combine_nil. apply repeat_length.
  - destruct input as [|x input]; [apply repeat_length|].
    simpl in Hrows. apply andb_true_iff in Hrows. destruct Hrows as [Hrow Hrows].
    apply Nat.eqb_eq in Hrow.
    simpl. rewrite vadd_length, length_map, Hrow, (IH Hrows).
    apply Nat.min_id.
Qed.

(** A [Dense] layer whose weights fit its input outputs one value per
    unit. *)
Lemma dense_built (units : nat) (a : Activation) (p : DenseParams) (input : list R) :
  dense_shape_ok (length input) units p = true ->
  exists y, dense units a p input = Some y /\ length y = units
            /\ y = activate a (vadd (dot input (kernel p) units) (bias p)).
Proof.
  intros Hok. unfold dense. rewrite Hok.
  eexists. split; [reflexivity|]. split; [|reflexivity].
  unfold dense_shape_ok in Hok.
  apply andb_true_iff in Hok. destruct Hok as [Hok Hbias].
  apply andb_true_iff in Hok. destruct Hok as [_ Hrows].
  apply Nat.eqb_eq in Hbias.
  rewrite activate_length, vadd_length, (dot_length _ _ Hrows), Hbias.
  apply Nat.min_id.
Qed.

Lemma flatten_length {A : Type} (h w c : nat) (t : tensor3 A) :
  has_shape (h, w, c) t = true -> length (flatten t) = (h * w * c)%nat.
Proof.
  unfold has_shape, flatten. intros H.
  apply andb_true_iff in H. destruct H as [Hh Hrows].
  apply Nat.eqb_eq in Hh. subst h.
  induction t as [|row t IH]; [reflexivity|].
  simpl in Hrows. apply andb_true_iff in Hrows. destruct Hrows as [Hrow Hrows].
  apply andb_true_iff in Hrow. destruct Hrow as [Hw Hpx].
  apply Nat.eqb_eq in Hw.
  simpl. rewrite concat_app, length_app, (IH Hrows).
  assert (Hr : length (concat row) = (length row * c)%nat).
  { clear Hw. induction row as [|px row IHr]; [reflexivity|].
    simpl in Hpx. apply andb_true_iff in Hpx. destruct Hpx as [Hc Hpx].
    apply Nat.eqb_eq in Hc.
    simpl. rewrite length_app, (IHr Hpx), Hc. reflexivity. }
  rewrite Hr, Hw. lia.
Qed.

End ForwardFacts.

(** In exact real arithmetic, which idealises the [float32] computation
    of the library: for every image of shape 28x28x1 and whatever the
    values of the weights, the forward pass returns 10 components, each
    nonnegative, that sum to 1. *)
Theorem model_output_distribution (weights : list DenseParams) (image : tensor3 R) :
  has_shape (28, 28, 1) image = true ->
  weights_built model 0 weights = true ->
  exists out,
    predict weights image = Some out
    /\ length out = 10
    /\ Forall (fun p => (0 <= p)%R) out
    /\ Rsum out = 1%R
    /\ exists logits, out = softmax_fn logits.
Proof.
  intros Himg Hw.
  pose proof (flatten_length _ _ _ _ Himg) as Hlen.
  unfold model in Hw. cbn [weights_built layer_output_size] in Hw.
  destruct weights as [|p1 [|p2 [|p3 [|p4 weights]]]];
    cbn [weights_built] in Hw; try discriminate.
  - rewrite andb_false_r in Hw. discriminate.
  - rewrite !andb_false_r in Hw. discriminate.
  - rewrite andb_true_r in Hw.
    apply andb_true_iff in Hw. destruct Hw as [H1 Hw].
    apply andb_true_iff in Hw. destruct Hw as [H2 H3].
    rewrite <- Hlen in H1.
    destruct (dense_built hidden_layer_size relu p1 (flatten image) H1)
      as (y1 & E1 & L1 & _).
    rewrite <- L1 in H2 at 1.
    destruct (dense_built hidden_layer_size relu p2 y1 H2) as (y2 & E2 & L2 & _).
    rewrite <- L2 in H3.
    destruct (dense_built output_size softmax p3 y2 H3) as (y3 & E3 & L3 & S3).
    exists y3.
    assert (Hpred : predict (p1 :: p2 :: p3 :: nil) image = Some y3).
    { unfold predict, model. cbn [forward apply_layer].
      rewrite Himg, E1, E2, E3. reflexivity. }
    split; [exact Hpred|]. split; [exact L3|].
    cbn [activate] in S3.
    set (logits := vadd (dot y2 (kernel p3) output_size) (bias p3)) in S3.
    assert (Hne : logits <> nil).
    { intros Hnil. rewrite S3, Hnil in L3. discriminate. }
    destruct (softmax_distribution Hne) as (_ & Hpos & Hsum).
    rewrite S3. repeat split.
    + revert Hpos. apply Forall_impl. intros p Hp. lra.
    + exact Hsum.
    + exists logits. reflexivity.
  - rewrite !andb_false_r in Hw. discriminate.
Qed.

Lemma model_output_distribution_witness :
  has_shape (28, 28, 1) zero_image = true
  /\ weights_built model 0 zero_weights = true
  /\ exists out,
       predict zero_weights zero_image = Some out
       /\ length out = 10
       /\ Forall (fun p => (0 <= p)%R) out
       /\ Rsum out = 1%R.
Proof.
  assert (Himg : has_shape (28, 28, 1) zero_image = true) by reflexivity.
  assert (Hw : weights_built model 0 zero_weights = true) by reflexivity.
  split; [exact Himg|]. split; [exact Hw|].
  destruct (model_output_distribution zero_weights zero_image Himg Hw)
    as (out & Hp & Hl & Hnn & Hs & _).
  exists out. auto.
Defined.

(* --------------------------------------------------------------------- *)
(** ** Scaled samples keep apart *)
(* --------------------------------------------------------------------- *)

Lemma recover_scale_pixel_all :
  forallb (fun p => Z.eqb (recover_pixel (scale_pixel p)) p)
          (map Z.of_nat (seq 0 256)) = true.
Proof. vm_compute. reflexivity. Qed.

Lemma recover_scale_pixel (p : Z) :
  is_uint8 p -> recover_pixel (scale_pixel p) = p.
Proof.
  intros Hp. pose proof recover_scale_pixel_all as Hall.
  rewrite forallb_forall in Hall.
  apply Z.eqb_eq, Hall, uint8_enumerated, Hp.
Qed.

Lemma tensor3_map_id_on {A : Type} (P : A -> Prop) (f : A -> A) (t : tensor3 A) :
  (forall x, P x -> f x = x) -> tensor3_Forall P t -> tensor3_map f t = t.
Proof.
  intros Hf Ht. unfold tensor3_map, tensor3_Forall in *.
  rewrite <- (map_id t) at 2. apply map_ext_Forall.
  revert Ht. apply Forall_impl. intros row Hrow.
  rewrite <- (map_id row) at 2. apply map_ext_Forall.
  revert Hrow. apply Forall_impl. intros px Hpx.
  rewrite <- (map_id px) at 2. apply map_ext_Forall.
  revert Hpx. apply Forall_impl. exact Hf.
Qed.

(** Distinct [uint8] images stay distinct when scaled. *)
Lemma scale_injective (i1 i2 : RawImage) (l1 l2 : Label) :
  tensor3_Forall is_uint8 i1 -> tensor3_Forall is_uint8 i2 ->
  scale i1 l1 = scale i2 l2 -> (i1, l1) = (i2, l2).
Proof.
  intros H1 H2. rewrite !scale_pixelwise. intros Heq.
  injection Heq as Himg Hlab. subst l2. f_equal.
  assert (Hrec : forall i, tensor3_Forall is_uint8 i ->
                   tensor3_map recover_pixel (tensor3_map scale_pixel i) = i).
  { intros i Hi. rewrite tensor3_map_map.
    exact (@tensor3_map_id_on _ is_uint8
             (fun p => recover_pixel (scale_pixel p)) i recover_scale_pixel Hi). }
  rewrite <- (Hrec i1 H1), <- (Hrec i2 H2), Himg. reflexivity.
Qed.

(** When the provider's test split shares no sample with its train
    split, no scaled test sample is among the scaled training and
    validation samples, however they are shuffled. *)
Lemma test_samples_held_out (mnist : Mnist) :
  uint8_images (mnist_train mnist) -> uint8_images (mnist_test mnist) ->
  (forall s, In s (mnist_test mnist) -> ~ In s (mnist_train mnist)) ->
  forall draws x,
    In x (scaled_test_data mnist) ->
    ~ In x (validation_samples mnist draws) /\ ~ In x (train_samples mnist draws).
Proof.
  intros Htrain Htest Hdisj draws x Hx.
  assert (Hnot : ~ In x (shuffled_train_and_validation_data mnist draws)).
  { intros Hin.
    apply (Permutation_in _ (shuffled_Permutation mnist draws)) in Hin.
    unfold scaled_test_data in Hx. unfold scaled_train_and_validation_data in Hin.
    apply in_map_iff in Hx. destruct Hx as ([i2 l2] & E2 & In2).
    apply in_map_iff in Hin. destruct Hin as ([i1 l1] & E1 & In1).
    simpl in E1, E2. rewrite <- E2 in E1.
    unfold uint8_images in Htrain, Htest. rewrite Forall_forall in Htrain, Htest.
    apply scale_injective in E1;
      [| exact (Htrain _ In1) | exact (Htest _ In2)].
    rewrite E1 in In1. exact (Hdisj _ In2 In1). }
  rewrite <- (take_skip_app (num_validation_samples mnist)
                (shuffled_train_and_validation_data mnist draws)) in Hnot.
  split; intros Hin; apply Hnot, in_or_app; [left | right]; exact Hin.
Qed.

(* --------------------------------------------------------------------- *)
(** ** Training and evaluation *)
(* --------------------------------------------------------------------- *)

Section TrainingFacts.

Variable ModelState : Type.
Variable train_step : ModelState -> Batch -> ModelState.
Variable evaluate_arrays : ModelState -> list Image * list Label -> Metrics.
Variable evaluate_dataset : ModelState -> list Batch -> Metrics.
Variable format_2f : F64.t -> string.

Implicit Types (r : Run ModelState) (st : ModelState).

Lemma for_each_app {X : Type} (xs ys : list X) (body : X -> M ModelState unit) r :
  for_each (xs ++ ys) body r
  = bind (for_each xs body) (fun _ => for_each ys body) r.
Proof.
  revert r. induction xs as [|x xs IH]; intros r; simpl.
  - reflexivity.
  - unfold bind. destruct (body x r) as [[[] r']|]; [|reflexivity].
    rewrite IH. reflexivity.
Qed.

(** One pass over the batches: one step per batch, in order. *)
Lemma train_pass_run (epoch : nat) (batches : list Batch) r :
  for_each batches (train_on_batch train_step epoch) r
  = Some (tt, {| model_state := fold_left train_step batches (model_state r);
                 events := events r ++ map (TrainStep epoch) batches |}).
Proof.
  revert r. induction batches as [|b batches IH]; intros r.
  - simpl. unfold ret. rewrite app_nil_r. destruct r; reflexivity.
  - simpl. unfold bind at 1. unfold train_on_batch at 1, bind, update, log.
    rewrite IH. simpl. rewrite <- app_assoc. reflexivity.
Qed.

Lemma filter_train_steps (p : Event -> bool) (epoch : nat) (batches : list Batch) :
  (forall b, p (TrainStep epoch b) = false) ->
  filter p (map (TrainStep epoch) batches) = [].
Proof.
  intros Hp. induction batches as [|b batches IH]; simpl; [reflexivity|].
  rewrite Hp. exact IH.
Qed.

Section Fit.

Variable train : Draws -> option (list Batch).
Variable batches_of : Draws -> list Batch.
Hypothesis train_ok : forall d, train d = Some (batches_of d).
Hypothesis train_nonempty : forall d, batches_of d <> [].
Variable epochs : nat.
Variable validation : list Image * list Label.
Variable draws : nat -> Draws.

Let batches (e : nat) : list Batch := batches_of (draws e).

Lemma fit_epoch_run (e : nat) r :
  fit_epoch train_step evaluate_arrays train epochs validation draws e r
  = Some (tt,
      {| model_state := fold_left train_step (batches e) (model_state r);
         events := events r
           ++ epoch_events train_step evaluate_arrays epochs validation
                (batches e) (model_state r) e |}).
Proof.
  unfold fit_epoch, bind, log at 1, lift, require. cbn [model_state events].
  rewrite train_ok.
  assert (Hhas : has_batches (batches_of (draws e)) = true).
  { pose proof (@train_nonempty (draws e)) as Hne.
    destruct (batches_of (draws e)); [congruence | reflexivity]. }
  rewrite Hhas, train_pass_run.
  unfold get_state, log. cbn [model_state events].
  unfold epoch_events, batches. rewrite <- !app_assoc. reflexivity.
Qed.

Lemma epochs_run (n : nat) r :
  for_each (seq 1 n)
    (fit_epoch train_step evaluate_arrays train epochs validation draws) r
  = Some (tt,
      {| model_state := state_after_epochs train_step batches (model_state r) n;
         events := events r
           ++ flat_map
                (fun e => epoch_events train_step evaluate_arrays epochs validation
                            (batches e)
                            (state_after_epochs train_step batches (model_state r) (e - 1))
                            e)
                (seq 1 n) |}).
Proof.
  induction n as [|n IH].
  - simpl. unfold ret. rewrite app_nil_r. destruct r; reflexivity.
  - rewrite seq_S, for_each_app. unfold bind at 1. rewrite IH.
    simpl for_each. unfold bind at 1. rewrite fit_epoch_run.
    unfold ret. cbn [model_state events].
    rewrite flat_map_app. simpl flat_map. rewrite app_nil_r.
    simpl (1 + n - 1). rewrite Nat.sub_0_r, <- app_assoc. reflexivity.
Qed.

(** [fit] runs to the end: the epochs follow one another, each a full
    pass over its batches and then the validation check, evaluated on
    the state the pass has left. *)
Lemma fit_run r :
  fit train_step evaluate_arrays train epochs validation draws r
  = Some (tt,
      {| model_state := state_after_epochs train_step batches (model_state r) epochs;
         events := events r
           ++ flat_map
                (fun e => epoch_events train_step evaluate_arrays epochs validation
                            (batches e)
                            (state_after_epochs train_step batches (model_state r) (e - 1))
                            e)
                (seq 1 epochs) |}).
Proof. apply epochs_run. Qed.

End Fit.

Lemma train_data_batches (mnist : Mnist) (d : Draws) :
  train_data mnist d = Some (train_batches mnist d).
Proof. unfold train_data. apply batch_positive. reflexivity. Qed.

Lemma mnist_train_batch_count (mnist : Mnist) (d : Draws) :
  mnist_counts mnist -> length (train_batches mnist d) = 540.
Proof.
  intros Hm. pose proof (mnist_train_length d Hm) as Hlen.
  unfold train_batches, BATCH_SIZE. change (Z.to_nat 100) with (S 99).
  apply chunks_exact. lia.
Qed.

Lemma mnist_train_batches_nonempty (mnist : Mnist) (d : Draws) :
  mnist_counts mnist -> train_batches mnist d <> [].
Proof.
  intros Hm Hnil. pose proof (mnist_train_batch_count d Hm) as Hlen.
  rewrite Hnil in Hlen. discriminate.
Qed.

Lemma epoch_head_train_steps (epochs e : nat) (batches : list Batch) :
  length (filter is_train_step (EpochBegin e epochs :: map (TrainStep e) batches))
  = length batches
  /\ filter is_validation_check
       (EpochBegin e epochs :: map (TrainStep e) batches) = [].
Proof.
  cbn [filter is_train_step is_validation_check]. split.
  - induction batches as [|b batches IH]; [reflexivity|].
    cbn [map filter is_train_step length]. rewrite IH. reflexivity.
  - apply filter_train_steps. reflexivity.
Qed.

Lemma epoch_events_train_steps (epochs : nat)
    (validation : list Image * list Label) (batches : list Batch)
    (st : ModelState) (e : nat) :
  length (filter is_train_step
            (epoch_events train_step evaluate_arrays epochs validation batches st e))
  = length batches.
Proof.
  unfold epoch_events. cbn [filter is_train_step].
  rewrite filter_app. cbn [filter is_train_step]. rewrite app_nil_r.
  induction batches as [|b batches IH]; [reflexivity|].
  cbn [map filter is_train_step length]. rewrite IH. reflexivity.
Qed.

Lemma epoch_events_validation_checks (epochs : nat)
    (validation : list Image * list Label) (batches : list Batch) st (e : nat) :
  length (filter is_validation_check
            (epoch_events train_step evaluate_arrays epochs validation batches st e))
  = 1.
Proof.
  unfold epoch_events. cbn [filter is_validation_check].
  rewrite filter_app, filter_train_steps by reflexivity.
  reflexivity.
Qed.

Lemma epoch_events_epoch_begins (epochs : nat)
    (validation : list Image * list Label) (batches : list Batch) st (e : nat) :
  length (filter is_epoch_begin
            (epoch_events train_step evaluate_arrays epochs validation batches st e))
  = 1.
Proof.
  unfold epoch_events. cbn [filter is_epoch_begin].
  rewrite filter_app, filter_train_steps by reflexivity.
  reflexivity.
Qed.

Lemma epoch_events_no_test (epochs : nat)
    (validation : list Image * list Label) (batches : list Batch) st (e : nat) :
  filter is_test_evaluation
    (epoch_events train_step evaluate_arrays epochs validation batches st e)
  = [].
Proof.
  unfold epoch_events. cbn [filter is_test_evaluation].
  rewrite filter_app, filter_train_steps by reflexivity.
  reflexivity.
Qed.

(** C6. On MNIST [fit] returns after exactly [NUM_EPOCHS] = 5 epochs.
    Its events are five passes one after the other; pass [e] announces
    the epoch, takes one step on each of the 540 batches of that epoch's
    iteration of the training data, in order, and only then evaluates
    the held-out validation inputs and targets, on the state that all
    steps of the passes 1 to [e] have produced.  So the validation check
    of epoch [e] comes when exactly [540 * e] steps and [e - 1] earlier
    checks are done, never in the middle of a pass, and there are five
    epochs and five checks in all. *)
Theorem fit_five_epochs (mnist : Mnist) (validation : list Image * list Label)
    (draws : nat -> Draws) r :
  mnist_counts mnist ->
  let batches := fun e => train_batches mnist (draws e) in
  let st := state_after_epochs train_step batches (model_state r) in
  let pass := fun e =>
    epoch_events train_step evaluate_arrays 5 validation (batches e) (st (e - 1)) e in
  NUM_EPOCHS = 5
  /\ (forall e, train_data mnist (draws e) = Some (batches e))
  /\ (forall e, length (batches e) = 540)
  /\ (forall k, pass (S k)
        = EpochBegin (S k) 5
          :: map (TrainStep (S k)) (batches (S k))
          ++ [ValidationCheck (S k) validation
                (evaluate_arrays (st (S k)) validation)])
  /\ (exists r',
        fit train_step evaluate_arrays (train_data mnist) NUM_EPOCHS validation draws r
        = Some (tt, r')
        /\ model_state r' = st 5
        /\ events r' = events r ++ pass 1 ++ pass 2 ++ pass 3 ++ pass 4 ++ pass 5
        /\ length (filter is_epoch_begin
                     (pass 1 ++ pass 2 ++ pass 3 ++ pass 4 ++ pass 5)) = 5
        /\ length (filter is_validation_check
                     (pass 1 ++ pass 2 ++ pass 3 ++ pass 4 ++ pass 5)) = 5)
  /\ (forall e, 1 <= e <= 5 ->
        exists before after,
          pass 1 ++ pass 2 ++ pass 3 ++ pass 4 ++ pass 5
          = before
            ++ ValidationCheck e validation (evaluate_arrays (st e) validation)
            :: after
          /\ length (filter is_train_step before) = 540 * e
          /\ length (filter is_validation_check before) = e - 1).
Proof.
  intros Hm batches st pass.
  assert (Hcount : forall e, length (batches e) = 540).
  { intros e. apply mnist_train_batch_count, Hm. }
  assert (Hpass : forall k, pass (S k)
            = (EpochBegin (S k) 5 :: map (TrainStep (S k)) (batches (S k)))
              ++ [ValidationCheck (S k) validation
                    (evaluate_arrays (st (S k)) validation)]).
  { intros k. unfold pass, epoch_events.
    simpl (S k - 1). rewrite Nat.sub_0_r. reflexivity. }
  split; [reflexivity|].
  split; [intros e; apply train_data_batches|].
  split; [exact Hcount|].
  split; [exact Hpass|].
  split.
  { eexists. split.
    { apply (fit_run (train_data mnist) (fun d => train_batches mnist d)).
      - intros d. apply train_data_batches.
      - intros d. apply mnist_train_batches_nonempty, Hm. }
    cbn [model_state events]. split; [reflexivity|]. split.
    { unfold NUM_EPOCHS. cbn [seq flat_map]. rewrite app_nil_r. reflexivity. }
    split.
    - rewrite !filter_app, !length_app. unfold pass.
      rewrite !epoch_events_epoch_begins. reflexivity.
    - rewrite !filter_app, !length_app. unfold pass.
      rewrite !epoch_events_validation_checks. reflexivity. }
  intros e He.
  assert (Hsteps : forall k, length (filter is_train_step (pass k)) = 540).
  { intros k. unfold pass. rewrite epoch_events_train_steps. apply Hcount. }
  assert (Hchecks : forall k, length (filter is_validation_check (pass k)) = 1).
  { intros k. unfold pass. apply epoch_events_validation_checks. }
  assert (Hhead : forall k,
            length (filter is_train_step
                      (EpochBegin k 5 :: map (TrainStep k) (batches k))) = 540
            /\ length (filter is_validation_check
                         (EpochBegin k 5 :: map (TrainStep k) (batches k))) = 0).
  { intros k. destruct (epoch_head_train_steps 5 k (batches k)) as [H1 H2].
    rewrite H1, H2, Hcount. split; reflexivity. }
  assert (Hcases : e = 1 \/ e = 2 \/ e = 3 \/ e = 4 \/ e = 5) by lia.
  destruct Hcases as [-> | [-> | [-> | [-> | ->]]]].
  - exists (EpochBegin 1 5 :: map (TrainStep 1) (batches 1)),
           (pass 2 ++ pass 3 ++ pass 4 ++ pass 5).
    split; [rewrite (Hpass 0), <- app_assoc; reflexivity|].
    destruct (Hhead 1) as [H1 H2]. rewrite H1, H2. split; reflexivity.
  - exists (pass 1 ++ EpochBegin 2 5 :: map (TrainStep 2) (batches 2)),
           (pass 3 ++ pass 4 ++ pass 5).
    split; [rewrite (Hpass 1), <- !app_assoc; reflexivity|].
    rewrite !filter_app, !length_app, Hsteps, Hchecks.
    destruct (Hhead 2) as [H1 H2]. rewrite H1, H2. split; reflexivity.
  - exists (pass 1 ++ pass 2 ++ EpochBegin 3 5 :: map (TrainStep 3) (batches 3)),
           (pass 4 ++ pass 5).
    split; [rewrite (Hpass 2), <- !app_assoc; reflexivity|].
    rewrite !filter_app, !length_app, !Hsteps, !Hchecks.
    destruct (Hhead 3) as [H1 H2]. rewrite H1, H2. split; reflexivity.
  - exists (pass 1 ++ pass 2 ++ pass 3
            ++ EpochBegin 4 5 :: map (TrainStep 4) (batches 4)),
           (pass 5).
    split; [rewrite (Hpass 3), <- !app_assoc; reflexivity|].
    rewrite !filter_app, !length_app, !Hsteps, !Hchecks.
    destruct (Hhead 4) as [H1 H2]. rewrite H1, H2. split; reflexivity.
  - exists (pass 1 ++ pass 2 ++ pass 3 ++ pass 4
            ++ EpochBegin 5 5 :: map (TrainStep 5) (batches 5)),
           [].
    split; [rewrite (Hpass 4), <- !app_assoc; reflexivity|].
    rewrite !filter_app, !length_app, !Hsteps, !Hchecks.
    destruct (Hhead 5) as [H1 H2]. rewrite H1, H2. split; reflexivity.
Qed.

Lemma mnist_validation_inputs_targets (mnist : Mnist) (d : Draws) :
  mnist_counts mnist ->
  validation_inputs_targets mnist d
  = Some (batch_tensors (validation_samples mnist d)).
Proof.
  intros Hm. unfold validation_inputs_targets.
  rewrite (mnist_validation_batches d Hm). reflexivity.
Qed.

(** C7. On MNIST the script runs to the end; after the five training
    passes, and not before, it evaluates the trained model once, on the
    batched test partition, and prints one line that holds both values
    of that evaluation, the test loss and the test accuracy (times 100).
    The test partition is the scaled test split of the provider and
    nothing else; when that split shares no sample with the train
    split, no test sample is among the validation or training samples
    of any iteration. *)
Theorem test_evaluated_once (mnist : Mnist) (rnd : Randomness) r0 :
  mnist_counts mnist ->
  let validation := batch_tensors (validation_samples mnist (validation_draws rnd)) in
  let batches := fun e => train_batches mnist (epoch_draws rnd e) in
  let st := state_after_epochs train_step batches (model_state r0) in
  let training :=
    flat_map (fun e => epoch_events train_step evaluate_arrays 5 validation
                         (batches e) (st (e - 1)) e)
             [1; 2; 3; 4; 5] in
  let compiled :=
    Compiled "adam" "sparse_categorical_crossentropy" ["accuracy"%string] in
  let test_batches := [scaled_test_data mnist] in
  let result := evaluate_dataset (st 5) test_batches in
  let printed :=
    Printed ("Perte lors du test : " ++ format_2f (fst result)
             ++ ". Précision lors du test : "
             ++ format_2f (F64.mul (snd result) F64.hundred) ++ "%")%string in
  (exists r',
     script train_step evaluate_arrays evaluate_dataset format_2f mnist rnd r0
     = Some (tt, r')
     /\ model_state r' = st 5
     /\ events r'
        = events r0 ++ compiled :: training
                    ++ [TestEvaluation test_batches result; printed])
  /\ filter is_test_evaluation (compiled :: training) = []
  /\ length (filter is_test_evaluation
               (compiled :: training
                ++ [TestEvaluation test_batches result; printed])) = 1
  /\ test_data mnist = Some test_batches
  /\ scaled_test_data mnist = map (fun s => scale (fst s) (snd s)) (mnist_test mnist)
  /\ (uint8_images (mnist_train mnist) -> uint8_images (mnist_test mnist) ->
      (forall s, In s (mnist_test mnist) -> ~ In s (mnist_train mnist)) ->
      forall d x,
        In x (scaled_test_data mnist) ->
        ~ In x (validation_samples mnist d) /\ ~ In x (train_samples mnist d)).
Proof.
  intros Hm validation batches st training compiled test_batches result printed.
  assert (Hno : filter is_test_evaluation (compiled :: training) = []).
  { unfold training. cbn [filter is_test_evaluation compiled flat_map].
    rewrite !filter_app, !epoch_events_no_test. reflexivity. }
  split; [|split; [exact Hno|split; [|split; [|split]]]].
  - eexists. split; [|split].
    + unfold script, bind at 1, lift at 1.
      rewrite (mnist_validation_inputs_targets (validation_draws rnd) Hm).
      unfold bind at 1, log at 1. unfold bind at 1.
      rewrite (fit_run (train_data mnist) (fun d => train_batches mnist d))
        by (intros d;
            first [apply train_data_batches
                  | apply mnist_train_batches_nonempty, Hm]).
      unfold bind at 1, evaluate, bind, lift, get_state, log, ret.
      rewrite (mnist_test_batches Hm). cbn [model_state events fst snd].
      reflexivity.
    + reflexivity.
    + cbn [events]. unfold report. fold test_batches. fold result.
      rewrite <- !app_assoc. reflexivity.
  - rewrite app_comm_cons, filter_app, Hno. reflexivity.
  - apply mnist_test_batches, Hm.
  - reflexivity.
  - apply test_samples_held_out.
Qed.

End TrainingFacts.

Lemma blank_image_uint8 : tensor3_Forall is_uint8 blank_image.
Proof.
  unfold tensor3_Forall, blank_image.
  apply Forall_forall. intros row Hrow. apply repeat_spec in Hrow. subst row.
  apply Forall_forall. intros px Hpx. apply repeat_spec in Hpx. subst px.
  constructor; [unfold is_uint8; lia | constructor].
Qed.

Lemma blank_mnist_uint8 :
  uint8_images (mnist_train blank_mnist) /\ uint8_images (mnist_test blank_mnist).
Proof.
  unfold uint8_images, blank_mnist. cbn [mnist_train mnist_test].
  split; apply Forall_forall; intros s Hs; apply repeat_spec in Hs; subst s;
    exact blank_image_uint8.
Qed.

Lemma blank_mnist_splits_disjoint :
  forall s, In s (mnist_test blank_mnist) -> ~ In s (mnist_train blank_mnist).
Proof.
  unfold blank_mnist. cbn [mnist_train mnist_test].
  intros s Htest Htrain.
  apply repeat_spec in Htest. apply repeat_spec in Htrain.
  rewrite Htest in Htrain. discriminate.
Qed.

Lemma test_evaluated_once_witness :
  mnist_counts blank_mnist
  /\ (exists r',
        script counting_step (fun _ _ => fixed_metrics) (fun _ _ => fixed_metrics)
               fixed_format blank_mnist fixed_randomness
               {| model_state := 0; events := [] |}
        = Some (tt, r'))
  /\ test_data blank_mnist = Some [scaled_test_data blank_mnist]
  /\ forall d x,
       In x (scaled_test_data blank_mnist) ->
       ~ In x (validation_samples blank_mnist d)
       /\ ~ In x (train_samples blank_mnist d).
Proof.
  split; [exact blank_mnist_counts|].
  pose proof (test_evaluated_once counting_step
                (fun _ _ => fixed_metrics) (fun _ _ => fixed_metrics)
                fixed_format fixed_randomness
                {| model_state := 0; events := [] |} blank_mnist_counts)
    as (Hrun & _ & _ & Htest & _ & Hheld).
  split; [|split].
  - destruct Hrun as (r' & Hr' & _). exists r'. exact Hr'.
  - exact Htest.
  - exact (Hheld (proj1 blank_mnist_uint8) (proj2 blank_mnist_uint8)
             blank_mnist_splits_disjoint).
Defined.

Lemma fit_five_epochs_witness :
  mnist_counts blank_mnist
  /\ exists r',
       fit counting_step (fun _ _ => fixed_metrics) (train_data blank_mnist)
           NUM_EPOCHS (batch_tensors []) (epoch_draws fixed_randomness)
           {| model_state := 0; events := [] |}
       = Some (tt, r').
Proof.
  split; [exact blank_mnist_counts|].
  pose proof (fit_five_epochs counting_step (fun _ _ => fixed_metrics)
                (batch_tensors []) (epoch_draws fixed_randomness)
                {| model_state := 0; events := [] |} blank_mnist_counts)
    as (_ & _ & _ & _ & Hrun & _).
  destruct Hrun as (r' & Hr' & _). exists r'. exact Hr'.
Defined.

(* --------------------------------------------------------------------- *)
(** ** The script on a small dataset *)
(* --------------------------------------------------------------------- *)

(** Ten training samples: one goes to validation, nine make one training
    batch per epoch; five steps are taken and eighteen events logged
    (compile, five times epoch/step/validation, test evaluation,
    print). *)
Example tiny_script_run :
  option_map
    (fun xr => (model_state (snd xr), length (events (snd xr))))
    (script counting_step (fun _ _ => fixed_metrics) (fun _ _ => fixed_metrics)
            fixed_format tiny_mnist fixed_randomness
            {| model_state := 0; events := [] |})
  = Some (5, 18).
Proof. vm_compute. reflexivity. Qed.

Example tiny_script_last_events :
  option_map
    (fun xr => map (fun ev => (is_epoch_begin ev, is_validation_check ev,
                               is_test_evaluation ev))
                   (skipn 13 (events (snd xr))))
    (script counting_step (fun _ _ => fixed_metrics) (fun _ _ => fixed_metrics)
            fixed_format tiny_mnist fixed_randomness
            {| model_state := 0; events := [] |})
  = Some [ (true, false, false); (false, false, false); (false, true, false);
           (false, false, true); (false, false, false) ].
Proof. vm_compute. reflexivity. Qed.

(** With a buffer of one element nothing is shuffled. *)
Example shuffle_buffer_1 :
  shuffle 1 (fun i => 5 * i + 3) [10; 20; 30; 40]%Z = [10; 20; 30; 40]%Z.
Proof. reflexivity. Qed.

(** Every iteration of the shuffled data draws anew, and C2 speaks of
    one iteration: the validation sample of one iteration can be a
    training sample of another. *)
Example iterations_share_samples :
  exists s,
    In s (validation_samples tiny_mnist (fun _ => 0))
    /\ In s (train_samples tiny_mnist (fun _ => 1)).
Proof.
  exists (scale (tiny_image 0) 0%Z). split.
  - vm_compute. left. reflexivity.
  - vm_compute. repeat ((left; reflexivity) || right).
Qed.

(** ** The validation count beyond MNIST *)

Lemma zrange_In (len : nat) :
  forall start n, (start <= n < start + Z.of_nat len)%Z -> In n (zrange start len).
Proof.
  induction len as [|len IH]; intros start n Hn; [lia|].
  simpl. destruct (Z.eq_dec start n) as [->|Hne]; [left; reflexivity|].
  right. apply IH. lia.
Qed.

Lemma validation_count_checked :
  forallb (fun n => Z.eqb (validation_count n) (truncated_tenth n))
          (zrange 0 (Z.to_nat 65536)) = true.
Proof. vm_cast_no_check (@eq_refl bool true). Qed.

(** For every train count below 65536 the script's validation count is
    the truncated tenth. *)
Lemma num_validation_samples_truncated_tenth (mnist : Mnist) :
  (0 <= train_num_examples mnist < 65536)%Z ->
  num_validation_samples mnist = truncated_tenth (train_num_examples mnist).
Proof.
  intros Hn. pose proof validation_count_checked as Hall.
  rewrite forallb_forall in Hall.
  specialize (Hall (train_num_examples mnist)).
  apply Z.eqb_eq. apply Hall. apply zrange_In. lia.
Qed.

(** The [float32] tensor that carries the product has 24 bits: a count
    this large no longer gives the truncated tenth. *)
Example validation_count_large :
  validation_count 83886089 = 8388609%Z
  /\ truncated_tenth 83886089 = 8388608%Z.
Proof. split; reflexivity. Qed.


(* ===================================================================== *)
(** * Further properties of the pipeline, the model and the run *)
(* ===================================================================== *)

(* --------------------------------------------------------------------- *)
(** ** [shuffle] *)
(* --------------------------------------------------------------------- *)

Section ShuffleFacts.
Context {A : Type}.
Implicit Types (ds buf rest : list A) (draws : Draws).

(** X1. Whatever the buffer size and the draws, the shuffled dataset is a
    rearrangement of the dataset: it has the same length and the same
    elements, each as often as before. *)
Theorem shuffle_rearranges (buffer_size : positive) draws ds :
  Permutation (shuffle buffer_size draws ds) ds
  /\ length (shuffle buffer_size draws ds) = length ds
  /\ (forall x, In x (shuffle buffer_size draws ds) <-> In x ds)
  /\ (NoDup ds <-> NoDup (shuffle buffer_size draws ds)).
Proof.
  pose proof (shuffle_Permutation buffer_size draws ds) as HP.
  repeat split.
  - exact HP.
  - apply Permutation_length, HP.
  - apply Permutation_in, HP.
  - apply Permutation_in, Permutation_sym, HP.
  - apply Permutation_NoDup, Permutation_sym, HP.
  - apply Permutation_NoDup, HP.
Qed.

Lemma shuffle_loop_single draws (steps : nat) :
  forall (i : nat) (a : A) rest,
    steps = S (length rest) ->
    shuffle_loop draws steps i [a] rest = a :: rest.
Proof.
  induction steps as [|steps IH]; intros i a rest Hsteps; [discriminate|].
  cbn [shuffle_loop length]. rewrite Nat.mod_1_r. cbn [extract].
  destruct rest as [|y rest].
  - destruct steps; [reflexivity | discriminate].
  - f_equal. cbn [app]. apply IH. simpl in Hsteps. lia.
Qed.

(** X2. With a buffer of one element nothing is shuffled: the dataset
    comes out in its order, whatever the draws. *)
Theorem shuffle_buffer_one_keeps_order draws ds : shuffle 1 draws ds = ds.
Proof.
  unfold shuffle. change (Pos.to_nat 1) with 1.
  destruct ds as [|a ds]; [reflexivity|].
  cbn [firstn skipn length]. apply shuffle_loop_single. reflexivity.
Qed.

Lemma extract_In (k : nat) buf (x : A) buf' :
  extract k buf = Some (x, buf') ->
  In x buf /\ (forall z, In z buf' -> In z buf).
Proof.
  intros E. pose proof (extract_Permutation _ _ E) as HP. split.
  - apply (Permutation_in _ (Permutation_sym HP)). left. reflexivity.
  - intros z Hz. apply (Permutation_in _ (Permutation_sym HP)). right. exact Hz.
Qed.

(** The first [k] outputs of the loop were in the buffer or among the
    first [k] elements still to come. *)
Lemma shuffle_loop_window draws (steps : nat) :
  forall (i k : nat) buf rest (x : A),
    In x (firstn k (shuffle_loop draws steps i buf rest)) ->
    In x (buf ++ firstn k rest).
Proof.
  induction steps as [|steps IH]; intros i k buf rest x Hin.
  - rewrite firstn_nil in Hin. destruct Hin.
  - cbn [shuffle_loop] in Hin.
    destruct (extract (draws i mod length buf) buf) as [[x0 buf']|] eqn:E;
      [|rewrite firstn_nil in Hin; destruct Hin].
    destruct (extract_In _ _ E) as [Hx0 Hbuf'].
    destruct k as [|k]; [destruct Hin|].
    destruct rest as [|y rest]; cbn [firstn] in Hin; destruct Hin as [<-|Hin].
    + apply in_or_app. left. exact Hx0.
    + apply IH in Hin. rewrite firstn_nil, app_nil_r in *.
      apply Hbuf', Hin.
    + apply in_or_app. left. exact Hx0.
    + apply IH in Hin. cbn [firstn].
      rewrite <- app_assoc in Hin. cbn [app] in Hin.
      apply in_app_or in Hin. apply in_or_app.
      destruct Hin as [Hin|Hin]; [left; apply Hbuf', Hin | right; exact Hin].
Qed.

(** X3. The shuffle is local: each of the first [k] elements of the
    shuffled dataset is among the first [k + buffer_size] elements of
    the dataset.  An element further back cannot come out that early. *)
Theorem shuffle_window (buffer_size : positive) draws ds (k : nat) (x : A) :
  In x (firstn k (shuffle buffer_size draws ds)) ->
  In x (firstn (k + Pos.to_nat buffer_size) ds).
Proof.
  unfold shuffle. intros Hin. apply shuffle_loop_window in Hin.
  rewrite (firstn_skipn_comm k (Pos.to_nat buffer_size) ds) in Hin.
  rewrite Nat.add_comm.
  rewrite <- (firstn_skipn (Pos.to_nat buffer_size)
                (firstn (Pos.to_nat buffer_size + k) ds)).
  rewrite firstn_firstn, Nat.min_l by lia. exact Hin.
Qed.

End ShuffleFacts.

Lemma shuffle_window_witness :
  In 30%Z (firstn 2 (shuffle 2 (fun i => i) [10; 20; 30; 40; 50]%Z))
  /\ In 30%Z (firstn (2 + Pos.to_nat 2) [10; 20; 30; 40; 50]%Z).
Proof.
  assert (H : In 30%Z (firstn 2 (shuffle 2 (fun i => i) [10; 20; 30; 40; 50]%Z))).
  { vm_compute. right. left. reflexivity. }
  split; [exact H | exact (shuffle_window _ _ _ _ _ H)].
Defined.

(* --------------------------------------------------------------------- *)
(** ** [scale] on datasets *)
(* --------------------------------------------------------------------- *)

(** Checked on the table of the 256 scaled values, pair by pair. *)
Lemma scale_pixel_pairs_increasing :
  (fun table =>
     forallb (fun ps =>
        forallb (fun qs => implb (fst ps <? fst qs)%Z (SFltb (snd ps) (snd qs)))
                table)
       table)
    (map (fun p => (p, scale_pixel p)) (zrange 0 256)) = true.
Proof. vm_cast_no_check (@eq_refl bool true). Qed.

(** X4. Scaling keeps the order of intensities strictly: of two pixel
    values in 0..255 the larger one has the larger scaled value, as a
    [float32] comparison. *)
Theorem scale_pixel_strictly_increasing (p q : Z) :
  is_uint8 p -> is_uint8 q -> (p < q)%Z ->
  SFltb (scale_pixel p) (scale_pixel q) = true.
Proof.
  intros Hp Hq Hlt. pose proof scale_pixel_pairs_increasing as Hall.
  cbv beta in Hall. rewrite forallb_forall in Hall.
  assert (Hin : forall r, is_uint8 r ->
            In (r, scale_pixel r) (map (fun p => (p, scale_pixel p)) (zrange 0 256))).
  { intros r Hr. apply (in_map (fun p => (p, scale_pixel p))).
    apply zrange_In. unfold is_uint8 in Hr. lia. }
  specialize (Hall _ (Hin p Hp)). rewrite forallb_forall in Hall.
  specialize (Hall _ (Hin q Hq)). cbn [fst snd] in Hall.
  apply Z.ltb_lt in Hlt. rewrite Hlt in Hall. exact Hall.
Qed.

Lemma scale_pixel_strictly_increasing_witness :
  is_uint8 127 /\ is_uint8 128
  /\ SFltb (scale_pixel 127) (scale_pixel 128) = true.
Proof.
  assert (H1 : is_uint8 127) by (unfold is_uint8; lia).
  assert (H2 : is_uint8 128) by (unfold is_uint8; lia).
  split; [exact H1|]. split; [exact H2|].
  apply (scale_pixel_strictly_increasing H1 H2). lia.
Defined.

Lemma NoDup_map_injective_on {A B : Type} (f : A -> B) (l : list A) :
  (forall x y, In x l -> In y l -> f x = f y -> x = y) ->
  NoDup l -> NoDup (map f l).
Proof.
  induction l as [|a l IH]; intros Hinj Hnd; [constructor|].
  inversion Hnd as [|? ? Hnotin Hnd']; subst.
  cbn [map]. constructor.
  - intros Hin. apply in_map_iff in Hin. destruct Hin as (y & Hy & Hyin).
    assert (y = a).
    { apply Hinj; [right; exact Hyin | left; reflexivity | exact Hy]. }
    subst y. exact (Hnotin Hyin).
  - apply IH; [|exact Hnd'].
    intros x y Hx Hy. apply Hinj; right; assumption.
Qed.

(** X5. Scaling keeps samples apart: a dataset of [uint8] images without
    a repeated sample has no repeated sample after [map(scale)]. *)
Theorem scale_keeps_samples_distinct (samples : list RawSample) :
  uint8_images samples ->
  NoDup samples ->
  NoDup (map (fun s => scale (fst s) (snd s)) samples).
Proof.
  intros Himg. apply NoDup_map_injective_on.
  unfold uint8_images in Himg. rewrite Forall_forall in Himg.
  intros [i1 l1] [i2 l2] H1 H2 Heq. cbn [fst snd] in Heq.
  apply scale_injective in Heq; [exact Heq | exact (Himg _ H1) | exact (Himg _ H2)].
Qed.

Lemma scale_keeps_samples_distinct_witness :
  uint8_images (mnist_train tiny_mnist)
  /\ NoDup (mnist_train tiny_mnist)
  /\ NoDup (map (fun s => scale (fst s) (snd s)) (mnist_train tiny_mnist)).
Proof.
  assert (H1 : uint8_images (mnist_train tiny_mnist)).
  { unfold uint8_images, tensor3_Forall, is_uint8. cbn.
    repeat (constructor; try lia). }
  assert (H2 : NoDup (mnist_train tiny_mnist)).
  { cbn. repeat (constructor; [simpl; intuition discriminate|]). constructor. }
  split; [exact H1|]. split; [exact H2|].
  exact (scale_keeps_samples_distinct H1 H2).
Defined.

Lemma has_shape_map {A B : Type} (f : A -> B) (shape : nat * nat * nat)
    (t : tensor3 A) :
  has_shape shape (tensor3_map f t) = has_shape shape t.
Proof.
  destruct shape as [[h w] c]. unfold has_shape, tensor3_map.
  rewrite length_map. f_equal.
  induction t as [|row t IH]; [reflexivity|].
  cbn [map forallb]. rewrite IH, length_map. do 2 f_equal.
  clear IH. induction row as [|px row IHr]; [reflexivity|].
  cbn [map forallb]. rewrite IHr, length_map. reflexivity.
Qed.

(** X6. [scale] keeps the shape of the image: the scaled image has a
    given shape exactly when the image had it, so scaled 28x28x1 images
    fit the input shape of the model. *)
Theorem scale_keeps_shape (shape : nat * nat * nat) (image : RawImage)
    (label : Label) :
  has_shape shape (fst (scale image label)) = has_shape shape image.
Proof. rewrite scale_pixelwise. cbn [fst]. apply has_shape_map. Qed.

(* --------------------------------------------------------------------- *)
(** ** [batch] *)
(* --------------------------------------------------------------------- *)

Section BatchFacts.
Context {A : Type}.
Implicit Types (ds : list A).

Lemma chunks_count (m : nat) ds :
  length (chunks (S m) ds) = (length ds + m) / S m.
Proof.
  pose proof (Nat.le_refl (length ds)) as Hle.
  revert Hle. generalize (length ds) at 2 as n. intros n.
  revert ds. induction n as [|n IH]; intros ds Hle.
  - destruct ds; [|simpl in Hle; lia]. simp chunks.
    symmetry. apply Nat.div_small. simpl. lia.
  - destruct ds as [|x ds]; simp chunks.
    + symmetry. apply Nat.div_small. simpl. lia.
    + cbn [length] in *. rewrite IH by (rewrite length_skipn; lia).
      rewrite length_skipn.
      destruct (Nat.le_gt_cases m (length ds)) as [Hm|Hm].
      * replace (length ds - m + m) with (length ds) by lia.
        replace (S (length ds) + m) with (length ds + 1 * S m) by lia.
        rewrite Nat.div_add by discriminate. lia.
      * replace (length ds - m + m) with m by lia.
        rewrite (Nat.div_small m (S m)) by lia.
        apply (Nat.div_unique _ _ 1 (length ds)); lia.
Qed.

Lemma chunks_full_but_last (m : nat) ds :
  forall (i : nat) (b : list A),
    nth_error (chunks (S m) ds) i = Some b ->
    S i < length (chunks (S m) ds) ->
    length b = S m.
Proof.
  pose proof (Nat.le_refl (length ds)) as Hle.
  revert Hle. generalize (length ds) at 2 as n. intros n.
  revert ds. induction n as [|n IH]; intros ds Hle i b.
  - destruct ds; [|simpl in Hle; lia]. simp chunks. destruct i; discriminate.
  - destruct ds as [|x ds]; simp chunks; [destruct i; discriminate|].
    cbn [length] in Hle. intros Hnth Hlast.
    destruct i as [|i]; cbn [nth_error length] in Hnth, Hlast.
    + injection Hnth as <-. cbn [length]. rewrite length_firstn.
      destruct (Nat.le_gt_cases m (length ds)) as [Hm|Hm]; [lia|].
      rewrite skipn_all2 in Hlast by lia. simp chunks in Hlast.
      simpl in Hlast. lia.
    + apply (IH (skipn m ds)) with (i := i).
      * rewrite length_skipn. lia.
      * exact Hnth.
      * lia.
Qed.

(** X7. Batching with a positive size succeeds and only groups: the
    batches put end to end are the dataset; there are as many batches as
    the size requires (the length divided by the size, rounded up); no
    batch is empty or larger than the size, and every batch except the
    last one is full. *)
Theorem batch_groups_in_order (batch_size : Z) ds :
  (0 < batch_size)%Z ->
  exists batches,
    batch batch_size ds = Some batches
    /\ concat batches = ds
    /\ Z.of_nat (length batches)
       = ((Z.of_nat (length ds) + batch_size - 1) / batch_size)%Z
    /\ Forall (fun b => (1 <= Z.of_nat (length b) <= batch_size)%Z) batches
    /\ (forall i b, nth_error batches i = Some b ->
                    S i < length batches ->
                    Z.of_nat (length b) = batch_size).
Proof.
  intros Hpos. rewrite batch_positive by exact Hpos.
  eexists. split; [reflexivity|].
  destruct (Z.to_nat batch_size) as [|m] eqn:Em; [lia|].
  assert (Hn : batch_size = Z.of_nat (S m)) by lia.
  repeat split.
  - apply chunks_concat. lia.
  - rewrite chunks_count, Hn.
    rewrite Nat2Z.inj_div. f_equal. lia.
  - pose proof (chunks_bounded (S m) ds) as Hb. revert Hb.
    apply Forall_impl. intros b Hb. lia.
  - intros i b Hnth Hlast. rewrite (chunks_full_but_last _ _ Hnth Hlast). lia.
Qed.

End BatchFacts.

Lemma batch_groups_in_order_witness :
  (0 < 2)%Z
  /\ exists batches,
       batch 2 [1; 2; 3; 4; 5]%Z = Some batches
       /\ concat batches = [1; 2; 3; 4; 5]%Z
       /\ Z.of_nat (length batches) = 3%Z.
Proof.
  assert (H : (0 < 2)%Z) by lia.
  split; [exact H|].
  destruct (batch_groups_in_order [1; 2; 3; 4; 5]%Z H)
    as (batches & Hb & Hcat & Hlen & _).
  exists batches. split; [exact Hb|]. split; [exact Hcat|]. exact Hlen.
Defined.

Lemma batch_elements {A : Type} (batch_size : Z) (ds : list A)
    (batches : list (list A)) :
  batch batch_size ds = Some batches ->
  forall b x, In b batches -> In x b -> In x ds.
Proof.
  unfold batch. destruct (Z.leb_spec batch_size 0) as [|Hpos]; [discriminate|].
  intros Hb b x Hbin Hx. injection Hb as <-.
  rewrite <- (@chunks_concat _ (Z.to_nat batch_size) ds) by lia.
  apply in_concat. exists b. split; assumption.
Qed.

(* --------------------------------------------------------------------- *)
(** ** The pipeline on any provider result *)
(* --------------------------------------------------------------------- *)

Lemma scaled_samples_normalized (samples : list RawSample) :
  uint8_images samples ->
  Forall (fun s => normalized (fst s))
         (map (fun s => scale (fst s) (snd s)) samples).
Proof.
  unfold uint8_images. intros Himg. apply Forall_map.
  revert Himg. apply Forall_impl. intros [image label] Hi. cbn [fst snd] in *.
  rewrite scale_pixelwise. cbn [fst]. unfold normalized.
  revert Hi. apply tensor3_Forall_map. exact scale_pixel_in_unit_range.
Qed.

Lemma shuffled_In (mnist : Mnist) (draws : Draws) (x : Sample) :
  In x (shuffled_train_and_validation_data mnist draws)
  <-> In x (scaled_train_and_validation_data mnist).
Proof.
  split; apply Permutation_in;
    [|apply Permutation_sym]; apply shuffled_Permutation.
Qed.

Lemma partition_In (mnist : Mnist) (draws : Draws) (x : Sample) :
  In x (validation_samples mnist draws) \/ In x (train_samples mnist draws) ->
  In x (scaled_train_and_validation_data mnist).
Proof.
  intros Hin. apply (shuffled_In mnist draws).
  rewrite <- (take_skip_app (num_validation_samples mnist)).
  apply in_or_app. exact Hin.
Qed.

(** X8. What reaches the model is normalized: when the provider's images
    are [uint8] tensors, every image of every training batch, of every
    validation batch and of every test batch has all its elements
    between 0 and 1, in every iteration. *)
Theorem batches_are_normalized (mnist : Mnist) (draws : Draws) :
  uint8_images (mnist_train mnist) -> uint8_images (mnist_test mnist) ->
  (forall batches, train_data mnist draws = Some batches ->
     Forall (Forall (fun s => normalized (fst s))) batches)
  /\ (forall batches, validation_data mnist draws = Some batches ->
        Forall (Forall (fun s => normalized (fst s))) batches)
  /\ (forall batches, test_data mnist = Some batches ->
        Forall (Forall (fun s => normalized (fst s))) batches).
Proof.
  intros Htrain Htest.
  pose proof (scaled_samples_normalized Htrain) as Hn1.
  pose proof (scaled_samples_normalized Htest) as Hn2.
  rewrite Forall_forall in Hn1, Hn2.
  repeat split; intros batches Hb;
    apply Forall_forall; intros b Hbin;
    apply Forall_forall; intros x Hx;
    pose proof (batch_elements _ _ Hb b x Hbin Hx) as Hin.
  - apply Hn1, (partition_In mnist draws). right. exact Hin.
  - apply Hn1, (partition_In mnist draws). left. exact Hin.
  - apply Hn2. exact Hin.
Qed.

Lemma batches_are_normalized_witness :
  uint8_images (mnist_train blank_mnist) /\ uint8_images (mnist_test blank_mnist)
  /\ forall batches,
       train_data blank_mnist (always 3) = Some batches ->
       Forall (Forall (fun s => normalized (fst s))) batches.
Proof.
  split; [exact (proj1 blank_mnist_uint8)|].
  split; [exact (proj2 blank_mnist_uint8)|].
  exact (proj1 (@batches_are_normalized blank_mnist (always 3)
                  (proj1 blank_mnist_uint8) (proj2 blank_mnist_uint8))).
Defined.

(** X10. The validation samples are drawn from the front of the train
    split only: with a nonnegative validation count [n], every
    validation sample is the scaled image of one of the first
    [n + BUFFER_SIZE] training examples (the first 16000 on MNIST). *)
Theorem validation_from_front (mnist : Mnist) (draws : Draws) (x : Sample) :
  (0 <= num_validation_samples mnist)%Z ->
  In x (validation_samples mnist draws) ->
  In x (map (fun s => scale (fst s) (snd s))
            (firstn (Z.to_nat (num_validation_samples mnist)
                     + Pos.to_nat BUFFER_SIZE)
                    (mnist_train mnist))).
Proof.
  intros Hnv Hin. unfold validation_samples, take in Hin.
  destruct (Z.ltb_spec (num_validation_samples mnist) 0) as [|_]; [lia|].
  unfold shuffled_train_and_validation_data in Hin.
  apply shuffle_window in Hin.
  unfold scaled_train_and_validation_data in Hin.
  rewrite firstn_map in Hin. exact Hin.
Qed.

Lemma validation_from_front_witness :
  (0 <= num_validation_samples tiny_mnist)%Z
  /\ In (scale (tiny_image 0) 0%Z) (validation_samples tiny_mnist (always 0))
  /\ In (scale (tiny_image 0) 0%Z)
        (map (fun s => scale (fst s) (snd s))
             (firstn (Z.to_nat (num_validation_samples tiny_mnist)
                      + Pos.to_nat BUFFER_SIZE)
                     (mnist_train tiny_mnist))).
Proof.
  assert (H0 : (0 <= num_validation_samples tiny_mnist)%Z) by (vm_compute; discriminate).
  assert (H1 : In (scale (tiny_image 0) 0%Z)
                  (validation_samples tiny_mnist (always 0))).
  { vm_compute. left. reflexivity. }
  split; [exact H0|]. split; [exact H1|].
  exact (@validation_from_front tiny_mnist (always 0) _ H0 H1).
Defined.

Lemma validation_samples_nonempty (mnist : Mnist) (draws : Draws) :
  (0 < num_validation_samples mnist)%Z ->
  mnist_train mnist <> [] ->
  validation_samples mnist draws <> []
  /\ (Z.of_nat (length (validation_samples mnist draws))
      <= num_validation_samples mnist)%Z.
Proof.
  intros Hnv Hne.
  assert (Hlen : length (validation_samples mnist draws)
                 = Nat.min (Z.to_nat (num_validation_samples mnist))
                           (length (mnist_train mnist))).
  { unfold validation_samples. rewrite take_length by lia.
    rewrite shuffled_length. reflexivity. }
  assert (0 < length (mnist_train mnist))%nat.
  { destruct (mnist_train mnist); [congruence | simpl; lia]. }
  split; [|lia].
  intros Hnil. rewrite Hnil in Hlen. simpl in Hlen. lia.
Qed.

(** X11. The validation dataset holds one batch, the one the script
    reads: with a positive validation count and a train split that is
    not empty, [validation_data] is the single batch of all validation
    samples, and the validation inputs and targets are its images and
    its labels, paired position by position. *)
Theorem validation_is_one_batch (mnist : Mnist) (draws : Draws) :
  (0 < num_validation_samples mnist)%Z ->
  mnist_train mnist <> [] ->
  validation_data mnist draws = Some [validation_samples mnist draws]
  /\ exists inputs targets,
       validation_inputs_targets mnist draws = Some (inputs, targets)
       /\ length inputs = length targets
       /\ combine inputs targets = validation_samples mnist draws.
Proof.
  intros Hnv Hne.
  destruct (@validation_samples_nonempty mnist draws Hnv Hne) as [Hvs Hlen].
  assert (Hvd : validation_data mnist draws = Some [validation_samples mnist draws]).
  { unfold validation_data. rewrite batch_positive by exact Hnv.
    f_equal. apply chunks_single; [exact Hvs | lia]. }
  split; [exact Hvd|].
  unfold validation_inputs_targets. rewrite Hvd. cbn [next_iter hd_error option_map].
  unfold batch_tensors.
  destruct (List.split (validation_samples mnist draws)) as [inputs targets] eqn:Es.
  exists inputs, targets. split; [reflexivity|]. split.
  - pose proof (length_fst_split (validation_samples mnist draws)) as H1.
    pose proof (length_snd_split (validation_samples mnist draws)) as H2.
    rewrite Es in H1, H2. cbn [fst snd] in H1, H2. congruence.
  - apply split_combine. exact Es.
Qed.

Lemma validation_is_one_batch_witness :
  (0 < num_validation_samples tiny_mnist)%Z
  /\ mnist_train tiny_mnist <> []
  /\ validation_data tiny_mnist (always 1)
     = Some [validation_samples tiny_mnist (always 1)].
Proof.
  assert (H0 : (0 < num_validation_samples tiny_mnist)%Z) by (vm_compute; reflexivity).
  assert (H1 : mnist_train tiny_mnist <> []) by (cbn; discriminate).
  split; [exact H0|]. split; [exact H1|].
  exact (proj1 (@validation_is_one_batch tiny_mnist (always 1) H0 H1)).
Defined.

(** X12. The test dataset is one batch as large as the test split: when
    [mnist_info] reports the number of test examples there are (at least
    one, below 2^63), [test_data] is the single batch of all scaled test
    samples, in the provider's order. *)
Theorem test_is_one_batch (mnist : Mnist) :
  test_num_examples mnist = Z.of_nat (length (mnist_test mnist)) ->
  mnist_test mnist <> [] ->
  (Z.of_nat (length (mnist_test mnist)) < 2 ^ 63)%Z ->
  num_test_samples mnist = Z.of_nat (length (mnist_test mnist))
  /\ test_data mnist = Some [scaled_test_data mnist].
Proof.
  intros Hinfo Hne Hmax.
  assert (Hpos : (0 < Z.of_nat (length (mnist_test mnist)))%Z).
  { destruct (mnist_test mnist); [congruence | simpl; lia]. }
  assert (Hnt : num_test_samples mnist = Z.of_nat (length (mnist_test mnist))).
  { unfold num_test_samples, Int64.of_int, Int64.wrap,
      Int64.modulus, Int64.half_modulus.
    rewrite Hinfo.
    assert (E : (2 ^ 64 = 2 ^ 63 + 2 ^ 63)%Z) by reflexivity.
    rewrite Z.mod_small; lia. }
  split; [exact Hnt|].
  unfold test_data. rewrite Hnt, batch_positive by exact Hpos.
  f_equal. apply chunks_single.
  - unfold scaled_test_data. intros Hnil. apply map_eq_nil in Hnil. exact (Hne Hnil).
  - unfold scaled_test_data. rewrite length_map, Nat2Z.id. apply Nat.le_refl.
Qed.

Lemma test_is_one_batch_witness :
  test_num_examples tiny_mnist = Z.of_nat (length (mnist_test tiny_mnist))
  /\ mnist_test tiny_mnist <> []
  /\ test_data tiny_mnist = Some [scaled_test_data tiny_mnist].
Proof.
  assert (H0 : test_num_examples tiny_mnist
               = Z.of_nat (length (mnist_test tiny_mnist))) by reflexivity.
  assert (H1 : mnist_test tiny_mnist <> []) by (cbn; discriminate).
  assert (H2 : (Z.of_nat (length (mnist_test tiny_mnist)) < 2 ^ 63)%Z)
    by (cbn; lia).
  split; [exact H0|]. split; [exact H1|].
  exact (proj2 (@test_is_one_batch tiny_mnist H0 H1 H2)).
Defined.

(* --------------------------------------------------------------------- *)
(** ** The model *)
(* --------------------------------------------------------------------- *)

Lemma dense_param_count_built (inputs units : nat) (p : DenseParams) :
  dense_shape_ok inputs units p = true ->
  dense_param_count p = inputs * units + units.
Proof.
  unfold dense_shape_ok, dense_param_count. intros H.
  apply andb_true_iff in H. destruct H as [H Hb].
  apply andb_true_iff in H. destruct H as [Hk Hr].
  apply Nat.eqb_eq in Hk, Hb. subst inputs. rewrite Hb. f_equal.
  revert Hr. generalize (kernel p) as rows.
  induction rows as [|row rows IH]; intros Hr; [reflexivity|].
  cbn [forallb] in Hr. apply andb_true_iff in Hr. destruct Hr as [Hrow Hr].
  apply Nat.eqb_eq in Hrow.
  cbn [map list_sum fold_right length]. fold (list_sum (map (@length R) rows)).
  rewrite (IH Hr), Hrow. lia.
Qed.

(** X15. The model has 42310 trainable values, whatever they are: the
    kernels and biases the three [Dense] layers are built with hold
    784*50 + 50, 50*50 + 50 and 50*10 + 10 numbers. *)
Theorem model_parameter_count (weights : list DenseParams) :
  weights_built model 0 weights = true ->
  length weights = 3
  /\ map dense_param_count weights = [784 * 50 + 50; 50 * 50 + 50; 50 * 10 + 10]
  /\ Z.of_nat (param_count weights) = 42310%Z.
Proof.
  intros Hw. unfold model in Hw. cbn [weights_built layer_output_size] in Hw.
  destruct weights as [|p1 [|p2 [|p3 [|p4 weights]]]];
    cbn [weights_built] in Hw; try discriminate;
    rewrite ?andb_false_r in Hw; try discriminate.
  rewrite andb_true_r in Hw.
  apply andb_true_iff in Hw. destruct Hw as [H1 Hw].
  apply andb_true_iff in Hw. destruct Hw as [H2 H3].
  apply dense_param_count_built in H1, H2, H3.
  unfold hidden_layer_size, output_size in *.
  split; [reflexivity|].
  assert (Hmap : map dense_param_count [p1; p2; p3]
                 = [784 * 50 + 50; 50 * 50 + 50; 50 * 10 + 10]).
  { cbn [map]. rewrite H1, H2, H3. reflexivity. }
  split; [exact Hmap|].
  unfold param_count. rewrite Hmap. reflexivity.
Qed.

Lemma model_parameter_count_witness :
  weights_built model 0 zero_weights = true
  /\ Z.of_nat (param_count zero_weights) = 42310%Z.
Proof.
  assert (Hw : weights_built model 0 zero_weights = true) by reflexivity.
  split; [exact Hw|].
  exact (proj2 (proj2 (model_parameter_count zero_weights Hw))).
Defined.

(* --------------------------------------------------------------------- *)
(** ** The run *)
(* --------------------------------------------------------------------- *)

Lemma small_count_no_validation (mnist : Mnist) :
  (0 <= train_num_examples mnist < 10)%Z -> num_validation_samples mnist = 0%Z.
Proof.
  intros Hn. rewrite num_validation_samples_truncated_tenth by lia.
  unfold truncated_tenth. apply Z.quot_small. exact Hn.
Qed.

Section RunFacts.

Variable ModelState : Type.
Variable train_step : ModelState -> Batch -> ModelState.
Variable evaluate_arrays : ModelState -> list Image * list Label -> Metrics.
Variable evaluate_dataset : ModelState -> list Batch -> Metrics.
Variable format_2f : F64.t -> string.

Implicit Types (r : Run ModelState).

(** X16. On MNIST every epoch takes 540 optimizer steps, one per batch of
    100, so [fit] takes 2700 steps in all before it returns, whatever
    the draws. *)
Theorem mnist_training_steps (mnist : Mnist)
    (validation : list Image * list Label) (draws : nat -> Draws) r :
  mnist_counts mnist ->
  (forall e, length (train_batches mnist (draws e)) = 540)
  /\ exists r' new,
       fit train_step evaluate_arrays (train_data mnist) NUM_EPOCHS validation
           draws r = Some (tt, r')
       /\ events r' = events r ++ new
       /\ Z.of_nat (length (filter is_train_step new)) = 2700%Z.
Proof.
  intros Hm.
  assert (Hcount : forall e, length (train_batches mnist (draws e)) = 540).
  { intros e. apply mnist_train_batch_count, Hm. }
  split; [exact Hcount|].
  eexists. eexists. split.
  { apply (fit_run train_step evaluate_arrays
             (train_data mnist) (fun d => train_batches mnist d)).
    - intros d. apply train_data_batches.
    - intros d. apply mnist_train_batches_nonempty, Hm. }
  cbn [events]. split; [reflexivity|].
  unfold NUM_EPOCHS. cbn [seq flat_map].
  rewrite !filter_app, !length_app, !epoch_events_train_steps, !Hcount.
  reflexivity.
Qed.

(** X17. With fewer than ten training examples reported, the validation
    count is 0 and batching the validation data with size 0 is an
    error: neither the validation dataset nor the validation inputs and
    targets can be read, and the script ends in an error. *)
Theorem small_train_split_fails (mnist : Mnist) (rnd : Randomness) r :
  (0 <= train_num_examples mnist < 10)%Z ->
  num_validation_samples mnist = 0%Z
  /\ (forall d, validation_data mnist d = None)
  /\ (forall d, validation_inputs_targets mnist d = None)
  /\ script train_step evaluate_arrays evaluate_dataset format_2f mnist rnd r
     = None.
Proof.
  intros Hn. pose proof (small_count_no_validation mnist Hn) as Hnv.
  assert (Hvd : forall d, validation_data mnist d = None).
  { intros d. unfold validation_data. rewrite Hnv. reflexivity. }
  assert (Hvi : forall d, validation_inputs_targets mnist d = None).
  { intros d. unfold validation_inputs_targets. rewrite Hvd. reflexivity. }
  split; [exact Hnv|]. split; [exact Hvd|]. split; [exact Hvi|].
  unfold script, bind, lift. rewrite Hvi. reflexivity.
Qed.

End RunFacts.

Lemma mnist_training_steps_witness :
  mnist_counts blank_mnist
  /\ forall e, length (train_batches blank_mnist (epoch_draws fixed_randomness e)) = 540.
Proof.
  split; [exact blank_mnist_counts|].
  exact (proj1 (mnist_training_steps counting_step (fun _ _ => fixed_metrics)
                  (batch_tensors []) (epoch_draws fixed_randomness)
                  {| model_state := 0; events := [] |} blank_mnist_counts)).
Defined.

Lemma small_train_split_fails_witness :
  (0 <= train_num_examples short_mnist < 10)%Z
  /\ script counting_step (fun _ _ => fixed_metrics) (fun _ _ => fixed_metrics)
            fixed_format short_mnist fixed_randomness
            {| model_state := 0; events := [] |}
     = None.
Proof.
  assert (H : (0 <= train_num_examples short_mnist < 10)%Z) by (cbn; lia).
  split; [exact H|].
  exact (proj2 (proj2 (proj2 (small_train_split_fails counting_step
                         (fun _ _ => fixed_metrics) (fun _ _ => fixed_metrics)
                         fixed_format short_mnist fixed_randomness
                         {| model_state := 0; events := [] |} H)))).
Defined.

(* --------------------------------------------------------------------- *)
(** ** Iterations of the shuffled data *)
(* --------------------------------------------------------------------- *)

Section DrawFacts.
Context {A : Type}.
Implicit Types (ds buf rest : list A).

Lemma shuffle_loop_always_0 (steps : nat) :
  forall (i : nat) buf rest,
    steps = length buf + length rest ->
    (buf = [] -> rest = []) ->
    shuffle_loop (always 0) steps i buf rest = buf ++ rest.
Proof.
  induction steps as [|steps IH]; intros i buf rest Hsteps Hbuf.
  - destruct buf; [|simpl in Hsteps; lia]. rewrite (Hbuf eq_refl). reflexivity.
  - destruct buf as [|a buf].
    { rewrite (Hbuf eq_refl) in Hsteps. discriminate. }
    cbn [shuffle_loop]. unfold always at 1.
    rewrite Nat.Div0.mod_0_l. cbn [extract].
    destruct rest as [|y rest].
    + rewrite app_nil_r. f_equal.
      rewrite <- (app_nil_r buf) at 2.
      apply IH; [simpl in *; lia | reflexivity].
    + cbn [app]. f_equal. rewrite IH.
      * rewrite <- app_assoc. reflexivity.
      * rewrite length_app. simpl in *. lia.
      * intros Hnil. apply app_eq_nil in Hnil. destruct Hnil; discriminate.
Qed.

Lemma shuffle_loop_always_1 (steps : nat) :
  forall (i : nat) (a : A) buf rest,
    steps = S (length buf + length rest) ->
    (buf = [] -> rest = []) ->
    shuffle_loop (always 1) steps i (a :: buf) rest = buf ++ rest ++ [a].
Proof.
  induction steps as [|steps IH]; intros i a buf rest Hsteps Hbuf; [discriminate|].
  destruct buf as [|b buf].
  - rewrite (Hbuf eq_refl) in *. simpl in Hsteps.
    assert (steps = 0) by lia. subst steps. reflexivity.
  - cbn [shuffle_loop]. unfold always at 1.
    rewrite Nat.mod_small by (simpl; lia). cbn [extract].
    destruct rest as [|y rest].
    + cbn [app]. f_equal. rewrite IH.
      * reflexivity.
      * simpl in *. lia.
      * reflexivity.
    + cbn [app]. f_equal.
      change ((a :: buf) ++ [y]) with (a :: (buf ++ [y])).
      rewrite IH.
      * rewrite <- app_assoc. reflexivity.
      * rewrite length_app. simpl in *. lia.
      * intros Hnil. apply app_eq_nil in Hnil. destruct Hnil; discriminate.
Qed.

(** Draws that always name slot 0 keep the order. *)
Lemma shuffle_always_0 (buffer_size : positive) ds :
  shuffle buffer_size (always 0) ds = ds.
Proof.
  unfold shuffle. rewrite shuffle_loop_always_0.
  - apply firstn_skipn.
  - rewrite <- length_app, firstn_skipn. reflexivity.
  - intros Hnil. destruct ds as [|a ds]; [apply skipn_nil|].
    destruct (Pos.to_nat buffer_size) eqn:E; [lia | discriminate].
Qed.

(** Draws that always name slot 1 move the first element to the end,
    when the buffer has room for two. *)
Lemma shuffle_always_1 (buffer_size : positive) (a : A) ds :
  2 <= Pos.to_nat buffer_size ->
  shuffle buffer_size (always 1) (a :: ds) = ds ++ [a].
Proof.
  intros Hb. unfold shuffle.
  destruct (Pos.to_nat buffer_size) as [|m] eqn:E; [lia|].
  rewrite firstn_cons, skipn_cons. cbn [length].
  rewrite shuffle_loop_always_1.
  - rewrite app_assoc, firstn_skipn. reflexivity.
  - rewrite <- length_app, firstn_skipn. reflexivity.
  - intros Hnil. destruct ds as [|b ds]; [apply skipn_nil|].
    destruct m; [lia | discriminate].
Qed.

End DrawFacts.

(** X18. The split does not keep the validation samples out of training.
    Every iteration of the shuffled data is drawn anew, the validation
    batch is read in one iteration and each epoch trains in another:
    whenever the validation count is at least 1 and below the size of
    the train split, there are draws with which a validation sample is
    also in the training partition, and in a training batch, of every
    epoch. *)
Theorem validation_can_be_trained_on (mnist : Mnist) :
  (1 <= num_validation_samples mnist < Z.of_nat (length (mnist_train mnist)))%Z ->
  exists (rnd : Randomness) (s : Sample),
    In s (validation_samples mnist (validation_draws rnd))
    /\ forall e,
         In s (train_samples mnist (epoch_draws rnd e))
         /\ exists b, In b (train_batches mnist (epoch_draws rnd e)) /\ In s b.
Proof.
  intros Hnv.
  exists {| validation_draws := always 0; epoch_draws := fun _ => always 1 |}.
  cbn [validation_draws epoch_draws].
  unfold validation_samples, train_samples, shuffled_train_and_validation_data.
  assert (Hlen : length (scaled_train_and_validation_data mnist)
                 = length (mnist_train mnist)) by apply length_map.
  destruct (scaled_train_and_validation_data mnist) as [|s0 scaled] eqn:Es.
  { simpl in Hlen. lia. }
  exists s0.
  assert (Hval : In s0 (take (num_validation_samples mnist)
                          (shuffle BUFFER_SIZE (always 0) (s0 :: scaled)))).
  { rewrite shuffle_always_0. unfold take.
    destruct (Z.ltb_spec (num_validation_samples mnist) 0); [lia|].
    destruct (Z.to_nat (num_validation_samples mnist)) eqn:En; [lia|].
    left. reflexivity. }
  assert (Htrain : In s0 (skip (num_validation_samples mnist)
                            (shuffle BUFFER_SIZE (always 1) (s0 :: scaled)))).
  { rewrite shuffle_always_1 by (unfold BUFFER_SIZE; lia). unfold skip.
    destruct (Z.ltb_spec (num_validation_samples mnist) 0); [lia|].
    rewrite skipn_app. apply in_or_app. right.
    simpl in Hlen.
    replace (Z.to_nat (num_validation_samples mnist) - length scaled) with 0 by lia.
    left. reflexivity. }
  split; [exact Hval|]. intros e. split; [exact Htrain|].
  unfold train_batches, train_samples, shuffled_train_and_validation_data.
  rewrite Es.
  rewrite <- (@chunks_concat _ (Z.to_nat BATCH_SIZE)
                (skip (num_validation_samples mnist)
                   (shuffle BUFFER_SIZE (always 1) (s0 :: scaled)))) in Htrain
    by (unfold BATCH_SIZE; lia).
  apply in_concat in Htrain. destruct Htrain as (b & Hb & Hs).
  exists b. split; assumption.
Qed.

Lemma validation_can_be_trained_on_witness :
  (1 <= num_validation_samples blank_mnist
   < Z.of_nat (length (mnist_train blank_mnist)))%Z
  /\ exists (rnd : Randomness) (s : Sample),
       In s (validation_samples blank_mnist (validation_draws rnd))
       /\ forall e, In s (train_samples blank_mnist (epoch_draws rnd e)).
Proof.
  assert (H : (1 <= num_validation_samples blank_mnist
               < Z.of_nat (length (mnist_train blank_mnist)))%Z).
  { rewrite (mnist_num_validation_samples blank_mnist_counts).
    destruct blank_mnist_counts as (-> & _). lia. }
  split; [exact H|].
  destruct (validation_can_be_trained_on blank_mnist H) as (rnd & s & Hv & Ht).
  exists rnd, s. split; [exact Hv|]. intros e. exact (proj1 (Ht e)).
Defined.

(* --------------------------------------------------------------------- *)
(** ** A buffer that holds the whole dataset *)
(* --------------------------------------------------------------------- *)

Section FullBuffer.
Context {A : Type}.
Implicit Types (ds buf : list A).

Lemma extract_of_In buf (x : A) :
  In x buf ->
  exists k buf', k < length buf /\ extract k buf = Some (x, buf').
Proof.
  induction buf as [|a buf IH]; intros Hin; [destruct Hin|].
  destruct Hin as [->|Hin].
  - exists 0, buf. split; [simpl; lia | reflexivity].
  - destruct (IH Hin) as (k & buf' & Hk & E).
    exists (S k), (a :: buf'). split; [simpl; lia|].
    cbn [extract]. rewrite E. reflexivity.
Qed.

(** With nothing left to read, the loop can empty the buffer in any
    order: the slots to draw are listed in [slots]. *)
Lemma shuffle_loop_reaches (target : list A) :
  forall buf,
    Permutation buf target ->
    exists slots,
      length slots = length target
      /\ forall draws i,
           (forall j, j < length slots -> draws (i + j) = nth j slots 0) ->
           shuffle_loop draws (length target) i buf [] = target.
Proof.
  induction target as [|x target IH]; intros buf HP.
  - exists []. split; [reflexivity|]. intros draws i _. reflexivity.
  - assert (Hin : In x buf).
    { apply (Permutation_in _ (Permutation_sym HP)). left. reflexivity. }
    destruct (extract_of_In _ _ Hin) as (k & buf' & Hk & E).
    pose proof (extract_Permutation _ _ E) as HP'.
    assert (HPt : Permutation buf' target).
    { apply (Permutation_cons_inv (a := x)).
      rewrite <- HP'. exact HP. }
    destruct (IH buf' HPt) as (slots & Hlen & Hrun).
    exists (k :: slots). split; [simpl; rewrite Hlen; reflexivity|].
    intros draws i Hdraws. cbn [length shuffle_loop].
    assert (Hi : draws i = k).
    { rewrite <- (Nat.add_0_r i). rewrite (Hdraws 0); [reflexivity | simpl; lia]. }
    rewrite Hi, Nat.mod_small by exact Hk. rewrite E. f_equal.
    apply Hrun. intros j Hj.
    replace (S i + j) with (i + S j) by lia.
    rewrite (Hdraws (S j)); [reflexivity | simpl; lia].
Qed.

(** X19. When the buffer holds the whole dataset the shuffle can produce
    every order: for each rearrangement of the dataset there are draws
    with which the shuffled dataset is that rearrangement. *)
Theorem full_buffer_reaches_every_order (buffer_size : positive) ds
    (target : list A) :
  length ds <= Pos.to_nat buffer_size ->
  Permutation ds target ->
  exists draws, shuffle buffer_size draws ds = target.
Proof.
  intros Hb HP.
  destruct (shuffle_loop_reaches (target := target) (buf := ds) HP)
    as (slots & Hlen & Hrun).
  exists (fun i => nth i slots 0). unfold shuffle.
  rewrite firstn_all2, skipn_all2 by exact Hb.
  rewrite (Permutation_length HP). apply Hrun.
  intros j _. reflexivity.
Qed.

End FullBuffer.

Lemma full_buffer_reaches_every_order_witness :
  length [10; 20; 30]%Z <= Pos.to_nat 3
  /\ Permutation [10; 20; 30]%Z [30; 10; 20]%Z
  /\ exists draws, shuffle 3 draws [10; 20; 30]%Z = [30; 10; 20]%Z.
Proof.
  assert (H1 : length [10; 20; 30]%Z <= Pos.to_nat 3) by (vm_compute; lia).
  assert (H2 : Permutation [10; 20; 30]%Z [30; 10; 20]%Z).
  { apply Permutation_sym.
    apply (Permutation_cons_app [10; 20]%Z [] 30%Z). reflexivity. }
  split; [exact H1|]. split; [exact H2|].
  exact (full_buffer_reaches_every_order 3 H1 H2).
Defined.

(* --------------------------------------------------------------------- *)
(** ** The partitions a run reads *)
(* --------------------------------------------------------------------- *)

Lemma first_sample_in_both (mnist : Mnist) (s0 : Sample) (rest : list Sample) :
  scaled_train_and_validation_data mnist = s0 :: rest ->
  (1 <= num_validation_samples mnist <= Z.of_nat (length rest))%Z ->
  nth_error (validation_samples mnist (always 0)) 0 = Some s0
  /\ nth_error (train_samples mnist (always 1))
               (length rest - Z.to_nat (num_validation_samples mnist))
     = Some s0.
Proof.
  intros Es Hnv.
  unfold validation_samples, train_samples, shuffled_train_and_validation_data.
  rewrite Es, shuffle_always_0, shuffle_always_1 by (unfold BUFFER_SIZE; lia).
  unfold take, skip.
  destruct (Z.ltb_spec (num_validation_samples mnist) 0); [lia|].
  split.
  - destruct (Z.to_nat (num_validation_samples mnist)) eqn:En; [lia|].
    reflexivity.
  - rewrite skipn_app.
    replace (Z.to_nat (num_validation_samples mnist) - length rest) with 0 by lia.
    cbn [skipn]. rewrite nth_error_app2 by (rewrite length_skipn; lia).
    rewrite length_skipn, Nat.sub_diag. reflexivity.
Qed.

(** C2 (the code does not do it). The validation partition the run reads
    and the training partition of an epoch are not disjoint.  The
    shuffled dataset is drawn anew on every iteration; the validation
    batch is read in one iteration and each epoch iterates the training
    data in another.  On the ten-sample dataset with the draws of
    [fixed_randomness], whose samples are pairwise distinct, the one
    validation sample is in the training partition of each of the five
    epochs.  On every provider result with the MNIST counts there are
    draws with which the first training example is the first validation
    sample and also the last training sample, in the last training
    batch, of every epoch. *)
Theorem validation_sample_in_training :
  (NoDup (scaled_train_and_validation_data tiny_mnist)
   /\ validation_samples tiny_mnist (validation_draws fixed_randomness)
      = [scale (tiny_image 0) 0%Z]
   /\ Forall (fun e => In (scale (tiny_image 0) 0%Z)
                          (train_samples tiny_mnist (epoch_draws fixed_randomness e)))
             [1; 2; 3; 4; 5])
  /\ (forall mnist, mnist_counts mnist ->
        exists (rnd : Randomness) (s : Sample),
          nth_error (scaled_train_and_validation_data mnist) 0 = Some s
          /\ nth_error (validation_samples mnist (validation_draws rnd)) 0 = Some s
          /\ forall e,
               nth_error (train_samples mnist (epoch_draws rnd e)) (Z.to_nat 53999)
               = Some s
               /\ exists b,
                    nth_error (train_batches mnist (epoch_draws rnd e)) 539 = Some b
                    /\ In s b).
Proof.
  split.
  - split; [exact tiny_scaled_NoDup|]. split; [vm_compute; reflexivity|].
    apply Forall_forall. intros e He. cbn [In] in He.
    destruct He as [<-|[<-|[<-|[<-|[<-|[]]]]]];
      vm_compute; repeat ((left; reflexivity) || right).
  - intros mnist Hm.
    pose proof (mnist_num_validation_samples Hm) as Hnv.
    assert (Hlen : Z.of_nat (length (scaled_train_and_validation_data mnist))
                   = 60000%Z).
    { unfold scaled_train_and_validation_data. rewrite length_map.
      destruct Hm as (Htrain & _). exact Htrain. }
    destruct (scaled_train_and_validation_data mnist) as [|s0 rest] eqn:Es;
      [simpl in Hlen; lia|].
    assert (Hrest : Z.of_nat (length rest) = 59999%Z).
    { cbn [length] in Hlen. lia. }
    destruct (@first_sample_in_both mnist s0 rest Es) as [Hval Htrain];
      [lia|].
    exists {| validation_draws := always 0; epoch_draws := fun _ => always 1 |}, s0.
    cbn [validation_draws epoch_draws].
    split; [reflexivity|]. split; [exact Hval|]. intros e.
    assert (Hpos : length rest - Z.to_nat (num_validation_samples mnist)
                   = Z.to_nat 53999) by lia.
    rewrite Hpos in Htrain. split; [exact Htrain|].
    pose proof (mnist_train_batch_count (always 1) Hm) as Hcount.
    destruct (nth_error (train_batches mnist (always 1)) 539) as [b|] eqn:Eb;
      [|apply nth_error_None in Eb; lia].
    exists b. split; [reflexivity|].
    pose proof (mnist_train_length (always 1) Hm) as Htl.
    assert (Hcat : concat (train_batches mnist (always 1))
                   = train_samples mnist (always 1)).
    { unfold train_batches. apply chunks_concat. unfold BATCH_SIZE. lia. }
    assert (Hfull : Forall (fun c => length c = 100) (train_batches mnist (always 1))).
    { unfold train_batches, BATCH_SIZE. change (Z.to_nat 100) with (S 99).
      apply chunks_exact with (k := 540). lia. }
    apply (nth_error_split) in Eb. destruct Eb as (front & back & Esplit & Hfront).
    rewrite Esplit in Hcat, Hfull, Hcount.
    apply Forall_app in Hfull. destruct Hfull as [Hff Hfb].
    inversion Hfb as [|? ? Hb Hback]; subst.
    assert (back = []).
    { rewrite length_app in Hcount. cbn [length] in Hcount.
      destruct back; [reflexivity | simpl in Hcount; lia]. }
    subst back. rewrite concat_app in Hcat. cbn [concat] in Hcat.
    rewrite app_nil_r in Hcat.
    assert (Hcf : length (concat front) = 100 * length front).
    { clear -Hff. induction Hff as [|c front Hc _ IH]; [reflexivity|].
      cbn [concat length]. rewrite length_app, Hc, IH. lia. }
    rewrite <- Hcat in Htrain.
    rewrite nth_error_app2 in Htrain by lia.
    apply nth_error_In in Htrain. exact Htrain.
Qed.

Lemma validation_sample_in_training_witness :
  mnist_counts blank_mnist
  /\ exists (rnd : Randomness) (s : Sample),
       nth_error (validation_samples blank_mnist (validation_draws rnd)) 0 = Some s
       /\ forall e,
            nth_error (train_samples blank_mnist (epoch_draws rnd e)) (Z.to_nat 53999)
            = Some s.
Proof.
  split; [exact blank_mnist_counts|].
  destruct (proj2 validation_sample_in_training blank_mnist blank_mnist_counts)
    as (rnd & s & _ & Hv & Ht).
  exists rnd, s. split; [exact Hv|]. intros e. exact (proj1 (Ht e)).
Defined.

(* --------------------------------------------------------------------- *)
(** ** Softmax outputs in [float32] *)
(* --------------------------------------------------------------------- *)

(** Ten equal logits: each exponential is 1, their sum is 10, and each
    output is the [float32] quotient of 1 by 10.  That quotient is above
    one tenth, so ten of them do not add up to 1, neither exactly nor
    when added one after the other in [float32]. *)
Example float32_tenths_do_not_sum_to_one :
  F32.div F32.one (F32.of_Z 10) = S754_finite false 13421773 (-27)
  /\ (10 * 13421773 <> 2 ^ 27)%Z
  /\ fold_left (SFadd F32.prec F32.emax)
               (repeat (F32.div F32.one (F32.of_Z 10)) 10) F32.zero
     <> F32.one.
Proof.
  split; [reflexivity|]. split; [discriminate|].
  vm_compute. discriminate.
Qed.
